(** * Spotify MCP server: credential refresh, album tools and tool dispatch

    A shallow embedding of
    - the token-refresh logic of [createSpotifyApi] and [authorizeSpotify]
      as quoted in TOKEN_REFRESH_FIX.md,
    - the four album tools that take an [albumIds] array (albums.ts) and the
      [devices] tool (devices.ts),
    - the CallTool request handler of index.ts.

    Asynchronous functions are computations over an explicit world: they
    return a completion (a value, or a thrown JavaScript value) together with
    the world they leave behind.  A thrown exception keeps the effects
    performed before it, as in JavaScript. *)

From Stdlib Require Import String Ascii ZArith List Bool Lia DecimalString.
Import ListNotations.

Local Open Scope string_scope.
Local Open Scope Z_scope.

(* ================================================================== *)
(** * JavaScript values, exceptions and effects *)
(* ================================================================== *)

Module Js.

(** A thrown value.  The handlers only ever ask
    [error instanceof Error ? error.message : String(error)]. *)
Inductive JsError : Type :=
| ErrorObject (message : string)
| OtherValue (rendering : string).

(** [error instanceof Error ? error.message : String(error)] *)
Definition errorText (error : JsError) : string :=
  match error with
  | ErrorObject message => message
  | OtherValue rendering => rendering
  end.

Inductive Completion (A : Type) : Type :=
| Returned (value : A)
| Thrown (error : JsError).
Arguments Returned {A} value.
Arguments Thrown {A} error.

(** An effectful computation over a world [W]. *)
Definition Eff (W A : Type) : Type := W -> Completion A * W.

Definition ret {W A} (a : A) : Eff W A := fun w => (Returned a, w).

Definition throw {W A} (e : JsError) : Eff W A := fun w => (Thrown e, w).

Definition bind {W A B} (m : Eff W A) (k : A -> Eff W B) : Eff W B :=
  fun w =>
    match m w with
    | (Returned a, w') => k a w'
    | (Thrown e, w') => (Thrown e, w')
    end.

(** [try { m } catch (error) { h error }] *)
Definition try_catch {W A} (m : Eff W A) (h : JsError -> Eff W A) : Eff W A :=
  fun w =>
    match m w with
    | (Returned a, w') => (Returned a, w')
    | (Thrown e, w') => h e w'
    end.

Definition isThrown {A} (c : Completion A) : bool :=
  match c with
  | Returned _ => false
  | Thrown _ => true
  end.

(** Truthiness of [string | undefined]: undefined and the empty string are
    falsy. *)
Definition truthy (s : option string) : bool :=
  match s with
  | Some v => negb (String.eqb v "")
  | None => false
  end.

(** [!n] for [number | undefined] over integers: undefined and 0 are falsy. *)
Definition falsy_number (n : option Z) : bool :=
  match n with
  | Some v => Z.eqb v 0
  | None => true
  end.

(** [n <= now] for [n : number | undefined]: a comparison with undefined is
    false. *)
Definition number_le (n : option Z) (now : Z) : bool :=
  match n with
  | Some v => Z.leb v now
  | None => false
  end.

(** Template-literal rendering of a non-negative integer. *)
Definition show_nat (n : nat) : string :=
  NilZero.string_of_uint (Nat.to_uint n).

(** [xs.map((x, i) => f x i)] *)
Fixpoint mapi_from {A B} (i : nat) (f : A -> nat -> B) (xs : list A) : list B :=
  match xs with
  | [] => []
  | x :: rest => f x i :: mapi_from (S i) f rest
  end.

Definition mapi {A B} (f : A -> nat -> B) (xs : list A) : list B :=
  mapi_from 0 f xs.

(** The double-quote character of the message templates. *)
Definition dq : string := String (ascii_of_nat 34) "".

End Js.

Import Js.

Declare Scope eff_scope.
Delimit Scope eff_scope with eff.
Notation "x <- m ;; k" := (bind m (fun x => k))
  (at level 61, m at next level, right associativity) : eff_scope.
Notation "m ;;; k" := (bind m (fun _ => k))
  (at level 61, right associativity) : eff_scope.
Local Open Scope eff_scope.

(* ================================================================== *)
(** * Credential lifecycle (TOKEN_REFRESH_FIX.md) *)
(* ================================================================== *)

Module Credentials.

(** [interface SpotifyConfig]; [expiresAt] is a Unix timestamp in
    milliseconds. *)
Record SpotifyConfig : Type := mkConfig {
  clientId : string;
  clientSecret : string;
  redirectUri : string;
  accessToken : option string;
  refreshToken : option string;
  expiresAt : option Z
}.

Definition set_accessToken (v : option string) (c : SpotifyConfig) : SpotifyConfig :=
  mkConfig (clientId c) (clientSecret c) (redirectUri c) v (refreshToken c) (expiresAt c).

Definition set_refreshToken (v : option string) (c : SpotifyConfig) : SpotifyConfig :=
  mkConfig (clientId c) (clientSecret c) (redirectUri c) (accessToken c) v (expiresAt c).

Definition set_expiresAt (v : option Z) (c : SpotifyConfig) : SpotifyConfig :=
  mkConfig (clientId c) (clientSecret c) (redirectUri c) (accessToken c) (refreshToken c) v.

(** A POST to https://accounts.spotify.com/api/token. *)
Inductive TokenRequest : Type :=
| RefreshGrant (refresh_token : option string) (client_id client_secret : string)
| CodeGrant (code : string) (client_id client_secret redirect_uri : string).

(** Modelled from the spec: the token endpoint is outside the sources.
    Section 6: a successful response is a JSON body with [access_token],
    [expires_in] (seconds) and, optionally, [refresh_token]. *)
Record TokenData : Type := mkTokenData {
  data_access_token : string;
  data_expires_in : Z;
  data_refresh_token : option string
}.

(** Modelled from the spec: section 4.2 tells three outcomes of a token
    request apart.  The endpoint grants tokens, rejects the grant (invalid or
    revoked credential), or cannot be reached; in the last two cases [error]
    is the exception the calling function raises. *)
Inductive EndpointReply : Type :=
| Granted (data : TokenData)
| Rejected (error : JsError)
| Unreachable (error : JsError).

(** The world of the credential code: the persisted spotify-config.json,
    whether it can be written, and the log of token requests and of writes. *)
Record World : Type := mkWorld {
  document : option SpotifyConfig;
  writable : bool;
  requests : list TokenRequest;
  writes : list SpotifyConfig
}.

Definition isRefresh (r : TokenRequest) : bool :=
  match r with
  | RefreshGrant _ _ _ => true
  | CodeGrant _ _ _ _ => false
  end.

(** Number of times the refresher reached the token endpoint. *)
Definition refreshCount (w : World) : nat :=
  List.length (List.filter isRefresh (requests w)).

(** [Promise<{ access_token: string; expires_in: number }>] *)
Record RefreshedTokens : Type := mkRefreshed {
  access_token : string;
  expires_in : Z
}.

(** The object returned by [exchangeCodeForToken]. *)
Record ExchangedTokens : Type := mkExchanged {
  x_access_token : string;
  x_refresh_token : option string;
  x_expires_in : Z
}.

(** What [createSpotifyApi] hands back: an API instance created with the
    config's access token, or nothing when the token block is skipped. *)
Inductive ApiInstance : Type :=
| WithAccessToken (token : option string)
| NoInstance.

(** The spec's wording of staleness: [expiresAt] is absent, or
    [now >= expiresAt]. *)
Definition spec_expired (config : SpotifyConfig) (now : Z) : Prop :=
  expiresAt config = None \/ exists e, expiresAt config = Some e /\ now >= e.

(** The guard of the token block: both tokens are present (and not empty). *)
Definition bootstrapped (config : SpotifyConfig) : Prop :=
  truthy (accessToken config) = true /\ truthy (refreshToken config) = true.

(** The world after one more token request. *)
Definition sent (req : TokenRequest) (w : World) : World :=
  mkWorld (document w) (writable w) (requests w ++ [req]) (writes w).

(** The world after one more write of the document. *)
Definition written (config : SpotifyConfig) (w : World) : World :=
  mkWorld (Some config) (writable w) (requests w) (writes w ++ [config]).

Section Manager.

(** The token endpoint: its reply to the request that arrives after [k]
    earlier ones. *)
Variable endpoint : nat -> TokenRequest -> EndpointReply.

(** The exceptions of the two store operations. *)
Variable ConfigMissing : JsError.
Variable PersistenceError : JsError.

(** Modelled from the spec: [loadSpotifyConfig] is not among the sources.
    Section 4.1: load returns the Credential Record as it is in durable
    storage (no caching), and fails when nothing is configured. *)
Definition loadSpotifyConfig : Eff World SpotifyConfig :=
  fun w =>
    match document w with
    | Some config => (Returned config, w)
    | None => (Thrown ConfigMissing, w)
    end.

(** Modelled from the spec: [saveSpotifyConfig] is not among the sources.
    Section 4.1: save writes the full record, or fails with a persistence
    error that is surfaced to the caller and leaves the document alone. *)
Definition saveSpotifyConfig (config : SpotifyConfig) : Eff World unit :=
  fun w =>
    if writable w
    then (Returned tt, written config w)
    else (Thrown PersistenceError, w).

(** Sending one request to the token endpoint. *)
Definition post (req : TokenRequest) : Eff World EndpointReply :=
  fun w =>
    (Returned (endpoint (List.length (requests w)) req), sent req w).

Definition refreshRequest (config : SpotifyConfig) : TokenRequest :=
  RefreshGrant (refreshToken config) (clientId config) (clientSecret config).

Definition codeRequest (code : string) (config : SpotifyConfig) : TokenRequest :=
  CodeGrant code (clientId config) (clientSecret config) (redirectUri config).

(** The reply the endpoint gives to a refresh sent from world [w]. *)
Definition nextReply (config : SpotifyConfig) (w : World) : EndpointReply :=
  endpoint (List.length (requests w)) (refreshRequest config).

(** What [refreshAccessToken] makes of the endpoint's reply: the declared
    result has the two fields [access_token] and [expires_in] only. *)
Definition refreshResult (reply : EndpointReply) : Completion RefreshedTokens :=
  match reply with
  | Granted data =>
      Returned (mkRefreshed (data_access_token data) (data_expires_in data))
  | Rejected error => Thrown error
  | Unreachable error => Thrown error
  end.

(** Modelled from the spec: the body of [refreshAccessToken] is not among the
    sources, only its signature and the description next to it (a POST with
    grant_type=refresh_token that sends the refresh token and returns the new
    access_token and its expires_in).  Section 4.2: a rejected grant and a
    transport failure are both raised to the caller, not retried. *)
Definition refreshAccessToken (config : SpotifyConfig) : Eff World RefreshedTokens :=
  reply <- post (refreshRequest config) ;;
  (fun w => (refreshResult reply, w)).

(** [!config.expiresAt || config.expiresAt <= now] *)
Definition shouldRefresh (config : SpotifyConfig) (now : Z) : bool :=
  falsy_number (expiresAt config) || number_le (expiresAt config) now.

(** The three statements after the await of [createSpotifyApi]. *)
Definition refreshed (config : SpotifyConfig) (now : Z) (tokens : RefreshedTokens)
  : SpotifyConfig :=
  set_expiresAt (Some (now + expires_in tokens * 1000))
    (set_accessToken (Some (access_token tokens)) config).

(** [createSpotifyApi], with [now] the value of [Date.now()] it reads.
    The quoted function ends after the token block; a config that fails the
    guard creates no token-based instance. *)
Definition createSpotifyApi (now : Z) : Eff World ApiInstance :=
  config <- loadSpotifyConfig ;;
  if truthy (accessToken config) && truthy (refreshToken config) then
    config <- (if shouldRefresh config now then
                 tokens <- refreshAccessToken config ;;
                 let config := refreshed config now tokens in
                 saveSpotifyConfig config ;;;
                 ret config
               else ret config) ;;
    ret (WithAccessToken (accessToken config))
  else ret NoInstance.

(** The object [exchangeCodeForToken] returns for a granted code:
    [expires_in: data.expires_in || 3600]. *)
Definition exchanged (data : TokenData) : ExchangedTokens :=
  mkExchanged (data_access_token data) (data_refresh_token data)
    (if Z.eqb (data_expires_in data) 0 then 3600 else data_expires_in data).

(** Modelled from the spec: of [exchangeCodeForToken] only the returned
    object is quoted.  Section 4.4: it calls the token endpoint with grant
    type authorization_code and fails on any endpoint error. *)
Definition exchangeCodeForToken (code : string) (config : SpotifyConfig)
  : Eff World ExchangedTokens :=
  reply <- post (codeRequest code config) ;;
  match reply with
  | Granted data => ret (exchanged data)
  | Rejected error => throw error
  | Unreachable error => throw error
  end.

(** The four quoted statements of [authorizeSpotify]; [now] is the value of
    [Date.now()] read by the third. *)
Definition authorized (config : SpotifyConfig) (now : Z) (tokens : ExchangedTokens)
  : SpotifyConfig :=
  set_expiresAt (Some (now + x_expires_in tokens * 1000))
    (set_refreshToken (x_refresh_token tokens)
       (set_accessToken (Some (x_access_token tokens)) config)).

(** Modelled from the spec: of [authorizeSpotify] only the four statements
    that store the tokens are quoted; how the code is obtained and exchanged
    before them is not among the sources.  Section 4.4: the authorization
    code is exchanged first, and the store is written only when the full
    exchange succeeded. *)
Definition authorizeSpotify (code : string) (now : Z) : Eff World unit :=
  config <- loadSpotifyConfig ;;
  tokens <- exchangeCodeForToken code config ;;
  saveSpotifyConfig (authorized config now tokens).

(** ** Suspension at the await

    [createSpotifyApi] is an async function: it runs without interruption up
    to [await refreshAccessToken(config)], where the token request has been
    sent, and is resumed when the reply arrives.  Other calls may run in
    between. *)

(** A call suspended at the await: its local [config] and [now], and the
    position of its request in the endpoint's queue. *)
Record Pending : Type := mkPending {
  p_config : SpotifyConfig;
  p_now : Z;
  p_ticket : nat
}.

(** From the call to the await (or to the end, when nothing is awaited). *)
Definition createSpotifyApi_start (now : Z)
  : World -> (Completion ApiInstance + Pending) * World :=
  fun w =>
    match loadSpotifyConfig w with
    | (Thrown e, w') => (inl (Thrown e), w')
    | (Returned config, w') =>
        if truthy (accessToken config) && truthy (refreshToken config) then
          if shouldRefresh config now then
            (inr (mkPending config now (List.length (requests w'))),
             snd (post (refreshRequest config) w'))
          else (inl (Returned (WithAccessToken (accessToken config))), w')
        else (inl (Returned NoInstance), w')
    end.

(** From the arrival of the reply to the end of the call. *)
Definition createSpotifyApi_resume (p : Pending) : Eff World ApiInstance :=
  tokens <- (fun w =>
               (refreshResult (endpoint (p_ticket p) (refreshRequest (p_config p))), w)) ;;
  let config := refreshed (p_config p) (p_now p) tokens in
  saveSpotifyConfig config ;;;
  ret (WithAccessToken (accessToken config)).

(** The state of one caller. *)
Inductive Task : Type :=
| Idle
| Suspended (p : Pending)
| Settled (result : Completion ApiInstance).

(** What the event loop runs next: a caller's invocation at clock reading
    [now], or the continuation of a suspended caller. *)
Inductive Event : Type :=
| Invoke (caller : nat) (now : Z)
| Deliver (caller : nat).

Record Process : Type := mkProcess {
  world : World;
  tasks : nat -> Task
}.

Definition setTask (i : nat) (t : Task) (ts : nat -> Task) : nat -> Task :=
  fun j => if Nat.eqb j i then t else ts j.

Definition step (s : Process) (ev : Event) : Process :=
  match ev with
  | Invoke i now =>
      match tasks s i with
      | Idle =>
          match createSpotifyApi_start now (world s) with
          | (inl result, w') => mkProcess w' (setTask i (Settled result) (tasks s))
          | (inr p, w') => mkProcess w' (setTask i (Suspended p) (tasks s))
          end
      | _ => s
      end
  | Deliver i =>
      match tasks s i with
      | Suspended p =>
          match createSpotifyApi_resume p (world s) with
          | (result, w') => mkProcess w' (setTask i (Settled result) (tasks s))
          end
      | _ => s
      end
  end.

Definition run (schedule : list Event) (s : Process) : Process :=
  List.fold_left step schedule s.

Definition boot (w : World) : Process := mkProcess w (fun _ => Idle).

End Manager.

(** ** Scenarios

    The records and endpoints of the spec's scenarios, at clock reading
    1000000. *)

Definition identity (access refresh : option string) (expires : option Z)
  : SpotifyConfig :=
  mkConfig "client-id" "client-secret" "http://127.0.0.1:8888/callback"
    access refresh expires.

(** [{accessToken: A1, expiresAt: now+60000}] *)
Definition freshRecord : SpotifyConfig :=
  identity (Some "A1") (Some "R1") (Some 1060000).

(** [{accessToken: A1, expiresAt: now-1000}] *)
Definition staleRecord : SpotifyConfig :=
  identity (Some "A1") (Some "R1") (Some 999000).

(** Identity fields only: no bootstrap has happened. *)
Definition emptyRecord : SpotifyConfig :=
  identity None None None.

(** The two scenario records read to the letter: an access token and an
    expiry, no refresh token. *)
Definition accessOnlyFresh : SpotifyConfig :=
  identity (Some "A1") None (Some 1060000).


Definition stored (config : SpotifyConfig) : World :=
  mkWorld (Some config) true [] [].

(** An endpoint that grants every request: the refresh that arrives after
    [k] earlier requests gets access token A(k+2) for 3600 seconds together
    with a new refresh token R2; a code is exchanged for A0 and R0. *)
Definition granting (k : nat) (req : TokenRequest) : EndpointReply :=
  match req with
  | RefreshGrant _ _ _ => Granted (mkTokenData ("A" ++ show_nat (k + 2)) 3600 (Some "R2"))
  | CodeGrant _ _ _ _ => Granted (mkTokenData "A0" 3600 (Some "R0"))
  end.

(** An endpoint that grants every request with A0 and R0 for [lifetime]
    seconds. *)
Definition exchanging (lifetime : Z) (k : nat) (req : TokenRequest) : EndpointReply :=
  Granted (mkTokenData "A0" lifetime (Some "R0")).

(** An endpoint that reports every grant as invalid. *)
Definition revoking (k : nat) (req : TokenRequest) : EndpointReply :=
  Rejected (ErrorObject "invalid_grant").

Definition configMissing : JsError := ErrorObject "no configuration".
Definition persistenceError : JsError := ErrorObject "cannot write configuration".

(** Two callers that both start, on the stale record, before either reply is
    handled. *)
Definition race : Process :=
  run granting configMissing persistenceError
    [Invoke 0 1000000; Invoke 1 1000000; Deliver 0; Deliver 1]
    (boot (stored staleRecord)).

End Credentials.

(* ================================================================== *)
(** * Tools (albums.ts, devices.ts) *)
(* ================================================================== *)

Module Tools.

(** [{ type: 'text', text }] *)
Record Content : Type := mkContent {
  type : string;
  text : string
}.

(** What a tool handler resolves to. *)
Record ToolResult : Type := mkToolResult {
  content : list Content
}.

Definition textResult (s : string) : ToolResult :=
  mkToolResult [mkContent "text" s].

(** The part of [SpotifyHandlerExtra] that is plain data. *)
Record SpotifyHandlerExtra : Type := mkExtra {
  requestId : string
}.

Record Artist : Type := mkArtist {
  artist_name : string
}.

Record Album : Type := mkAlbum {
  album_name : string;
  album_artists : list Artist;
  release_date : string;
  total_tracks : nat;
  album_id : string
}.

Record Device : Type := mkDevice {
  device_id : string;
  device_name : string
}.

Record Devices : Type := mkDevices {
  devices : list Device
}.

(** Arguments of the four tools whose schema is [{ albumIds: string[] }], as
    the handlers' type declares them; [Albums.unvalidated] gives the same
    handlers on arguments that were not validated. *)
Record AlbumIdsArgs : Type := mkAlbumIdsArgs {
  albumIds : list string
}.

(** The methods of the SDK's [SpotifyApi] object that these tools call; each
    is a request to the Spotify Web API. *)
Record SpotifyApi (W : Type) : Type := mkSpotifyApi {
  albums_get : list string -> Eff W (list (option Album));
  saveAlbums : list string -> Eff W unit;
  removeAlbums : list string -> Eff W unit;
  hasSavedAlbums : list string -> Eff W (list bool);
  getAvailableDevices : Eff W Devices
}.
Arguments albums_get {W} _ _ _.
Arguments saveAlbums {W} _ _ _.
Arguments removeAlbums {W} _ _ _.
Arguments hasSavedAlbums {W} _ _ _.
Arguments getAvailableDevices {W} _ _.

(** [tool<Args>] of types.ts, without its zod schema. *)
Record tool (W Args : Type) : Type := mkTool {
  name : string;
  description : string;
  handler : Args -> SpotifyHandlerExtra -> Eff W ToolResult
}.
Arguments mkTool {W Args} _ _ _.
Arguments name {W Args} _.
Arguments description {W Args} _.
Arguments handler {W Args} _ _ _ _.

Definition nl : string := String (ascii_of_nat 10) "".

(** [artists.map((a) => a.name).join(', ')] *)
Definition artistNames (artists : list Artist) : string :=
  String.concat ", " (List.map artist_name artists).

(** [`...${n} album${n === 1 ? '' : 's'}`] *)
Definition plural (n : nat) : string :=
  if Nat.eqb n 1 then "" else "s".

Section Handlers.

Variable W : Type.

(** [handleSpotifyRequest] of utils.ts is not among the sources: the handlers
    are given for any implementation of it. *)
Variable handleSpotifyRequest : forall T : Type, (SpotifyApi W -> Eff W T) -> Eff W T.

Definition formatAlbum (album : option Album) (i : nat) : string :=
  match album with
  | None => show_nat (i + 1) ++ ". [Album not found]"
  | Some album =>
      let artists := artistNames (album_artists album) in
      show_nat (i + 1) ++ ". " ++ dq ++ album_name album ++ dq ++ " by " ++ artists
        ++ " (" ++ release_date album ++ ") - " ++ show_nat (total_tracks album)
        ++ " tracks - ID: " ++ album_id album
  end.

Definition getMultipleAlbums_handler (args : AlbumIdsArgs) (_extra : SpotifyHandlerExtra)
  : Eff W ToolResult :=
  let albumIds := albumIds args in
  if Nat.eqb (List.length albumIds) 0 then
    ret (textResult "Error: No album IDs provided")
  else
    try_catch
      (albums <- handleSpotifyRequest _ (fun spotifyApi => albums_get spotifyApi albumIds) ;;
       if Nat.eqb (List.length albums) 0 then
         ret (textResult "No albums found for the provided IDs")
       else
         let formattedAlbums := String.concat nl (mapi formatAlbum albums) in
         ret (textResult ("# Multiple Albums" ++ nl ++ nl ++ formattedAlbums)))
      (fun error => ret (textResult ("Error getting albums: " ++ errorText error))).

Definition saveAlbumsForUser_handler (args : AlbumIdsArgs) (_extra : SpotifyHandlerExtra)
  : Eff W ToolResult :=
  let albumIds := albumIds args in
  if Nat.eqb (List.length albumIds) 0 then
    ret (textResult "Error: No album IDs provided")
  else
    try_catch
      (handleSpotifyRequest _ (fun spotifyApi => saveAlbums spotifyApi albumIds) ;;;
       ret (textResult ("Successfully saved " ++ show_nat (List.length albumIds)
                          ++ " album" ++ plural (List.length albumIds)
                          ++ " to your library")))
      (fun error => ret (textResult ("Error saving albums: " ++ errorText error))).

Definition removeAlbumsForUser_handler (args : AlbumIdsArgs) (_extra : SpotifyHandlerExtra)
  : Eff W ToolResult :=
  let albumIds := albumIds args in
  if Nat.eqb (List.length albumIds) 0 then
    ret (textResult "Error: No album IDs provided")
  else
    try_catch
      (handleSpotifyRequest _ (fun spotifyApi => removeAlbums spotifyApi albumIds) ;;;
       ret (textResult ("Successfully removed " ++ show_nat (List.length albumIds)
                          ++ " album" ++ plural (List.length albumIds)
                          ++ " from your library")))
      (fun error => ret (textResult ("Error removing albums: " ++ errorText error))).

(** [savedStatus[i]] is undefined, hence falsy, past the end of the array. *)
Definition formatSaved (savedStatus : list bool) (albumId : string) (i : nat) : string :=
  let isSaved := List.nth i savedStatus false in
  show_nat (i + 1) ++ ". " ++ albumId ++ ": " ++ (if isSaved then "Saved" else "Not saved").

Definition checkUsersSavedAlbums_handler (args : AlbumIdsArgs) (_extra : SpotifyHandlerExtra)
  : Eff W ToolResult :=
  let albumIds := albumIds args in
  if Nat.eqb (List.length albumIds) 0 then
    ret (textResult "Error: No album IDs provided")
  else
    try_catch
      (savedStatus <- handleSpotifyRequest _
                        (fun spotifyApi => hasSavedAlbums spotifyApi albumIds) ;;
       let formattedResults := String.concat nl (mapi (formatSaved savedStatus) albumIds) in
       ret (textResult ("# Album Save Status" ++ nl ++ nl ++ formattedResults)))
      (fun error => ret (textResult ("Error checking saved albums: " ++ errorText error))).

Definition getMultipleAlbums : tool W AlbumIdsArgs :=
  mkTool "getMultipleAlbums"
    "Get detailed information about multiple albums by their Spotify IDs (max 20)"
    getMultipleAlbums_handler.

Definition saveAlbumsForUser : tool W AlbumIdsArgs :=
  mkTool "saveAlbumsForUser"
    ("Save albums to the user's " ++ dq ++ "Your Music" ++ dq ++ " library")
    saveAlbumsForUser_handler.

Definition removeAlbumsForUser : tool W AlbumIdsArgs :=
  mkTool "removeAlbumsForUser"
    ("Remove albums from the user's " ++ dq ++ "Your Music" ++ dq ++ " library")
    removeAlbumsForUser_handler.

Definition checkUsersSavedAlbums : tool W AlbumIdsArgs :=
  mkTool "checkUsersSavedAlbums"
    ("Check if albums are saved in the user's " ++ dq ++ "Your Music" ++ dq ++ " library")
    checkUsersSavedAlbums_handler.

(** The members of [albumTools] that take an [albumIds] array. *)
Definition albumIdsTools : list (tool W AlbumIdsArgs) :=
  [getMultipleAlbums; saveAlbumsForUser; removeAlbumsForUser; checkUsersSavedAlbums].

(** devices.ts: the handler takes no argument and has no try block. *)
Definition getAvailableDevices_handler {Args : Type} (_ : Args) (_ : SpotifyHandlerExtra)
  : Eff W ToolResult :=
  result <- handleSpotifyRequest _ (fun spotifyApi => getAvailableDevices spotifyApi) ;;
  ret (textResult
         ("Available devices: "
            ++ String.concat ""
                 (List.map (fun d => nl ++ "- " ++ device_name d ++ " (" ++ device_id d ++ ")")
                    (devices result)))).

Definition getAvailableDevicesTool {Args : Type} : tool W Args :=
  mkTool "devices" "Get a list of available Spotify devices" getAvailableDevices_handler.

Definition deviceTools {Args : Type} : list (tool W Args) := [getAvailableDevicesTool].

End Handlers.

(** ** A recording instance

    A world that is the log of the requests made to the Spotify Web API, an
    SDK object whose methods append to it, and the plainest
    [handleSpotifyRequest]: run the action on that object. *)

Inductive ApiRequest : Type :=
| GetAlbums (ids : list string)
| SaveAlbums (ids : list string)
| RemoveAlbums (ids : list string)
| HasSavedAlbums (ids : list string)
| GetAvailableDevices.

(** How the remote API answers each request. *)
Record Backend : Type := mkBackend {
  onGetAlbums : list string -> Completion (list (option Album));
  onSaveAlbums : list string -> Completion unit;
  onRemoveAlbums : list string -> Completion unit;
  onHasSavedAlbums : list string -> Completion (list bool);
  onGetAvailableDevices : Completion Devices
}.

Definition request {A : Type} (req : ApiRequest) (reply : Completion A)
  : Eff (list ApiRequest) A :=
  fun log => (reply, (log ++ [req])%list).

Definition recordingApi (b : Backend) : SpotifyApi (list ApiRequest) :=
  mkSpotifyApi (list ApiRequest)
    (fun ids => request (GetAlbums ids) (onGetAlbums b ids))
    (fun ids => request (SaveAlbums ids) (onSaveAlbums b ids))
    (fun ids => request (RemoveAlbums ids) (onRemoveAlbums b ids))
    (fun ids => request (HasSavedAlbums ids) (onHasSavedAlbums b ids))
    (request GetAvailableDevices (onGetAvailableDevices b)).

Definition directRequest (b : Backend) (T : Type)
    (action : SpotifyApi (list ApiRequest) -> Eff (list ApiRequest) T)
  : Eff (list ApiRequest) T :=
  action (recordingApi b).

Definition abbeyRoad : Album :=
  mkAlbum "Abbey Road" [mkArtist "The Beatles"] "1969-09-26" 17 "0ETFjACtuP2ADo6LFhL6HN".

(** A backend that knows one album, has it saved, and sees one device. *)
Definition library : Backend :=
  mkBackend
    (fun ids => Returned (List.map (fun id => if String.eqb id (album_id abbeyRoad)
                                              then Some abbeyRoad else None) ids))
    (fun _ => Returned tt)
    (fun _ => Returned tt)
    (fun ids => Returned (List.map (fun id => String.eqb id (album_id abbeyRoad)) ids))
    (Returned (mkDevices [mkDevice "d1" "Kitchen speaker"])).

(** A backend that refuses every request. *)
Definition unauthorized : Backend :=
  mkBackend
    (fun _ => Thrown (ErrorObject "Unauthorized"))
    (fun _ => Thrown (ErrorObject "Unauthorized"))
    (fun _ => Thrown (ErrorObject "Unauthorized"))
    (fun _ => Thrown (ErrorObject "Unauthorized"))
    (Thrown (ErrorObject "Unauthorized")).

End Tools.

(* ================================================================== *)
(** * The CallTool request handler (index.ts) *)
(* ================================================================== *)

Module Server.

Import Tools.

(** What the CallTool handler resolves to: [{ content }] or
    [{ content, isError: true }]. *)
Record CallToolResult : Type := mkCallToolResult {
  result_content : list Content;
  isError : option bool
}.

Definition mockExtra : SpotifyHandlerExtra := mkExtra "mcp-request".

Section Dispatch.

Variables W Args : Type.

(** [allTools]: the concatenation of the read, play, album and device tools. *)
Variable allTools : list (tool W Args).

(** [allTools.find(t => t.name === name)] *)
Definition findTool (name : string) : option (tool W Args) :=
  List.find (fun t => String.eqb (Tools.name t) name) allTools.

(** The handler registered for [CallToolRequestSchema], applied to
    [request.params.name] and [request.params.arguments]. *)
Definition callTool (name : string) (args : Args) : Eff W CallToolResult :=
  match findTool name with
  | None => throw (ErrorObject ("Tool not found: " ++ name))
  | Some tool =>
      try_catch
        (result <- handler tool args mockExtra ;;
         ret (mkCallToolResult (content result) None))
        (fun error =>
           ret (mkCallToolResult
                  [mkContent "text"
                     ("Error executing tool " ++ dq ++ name ++ dq ++ ": " ++ errorText error)]
                  (Some true)))
  end.

End Dispatch.

(** A catalog over the recording instance: the album tools that take
    [albumIds], then the device tools. *)
Definition recordedTools (b : Backend) : list (tool (list ApiRequest) AlbumIdsArgs) :=
  (albumIdsTools (list ApiRequest) (directRequest b)
     ++ deviceTools (list ApiRequest) (directRequest b))%list.

End Server.

(* ================================================================== *)
(** * The tool list (index.ts: zodToJsonSchema, mcpTools) *)
(* ================================================================== *)

Module Schema.

Import Tools.

Set Warnings "-register-all".

(** The zod schemas [zodToJsonSchema] tells apart by [_def.typeName], each
    with its [_def.description]; [ZodOther] is any other kind of schema. *)
Inductive ZodType : Type :=
| ZodString (description : option string)
| ZodNumber (description : option string)
| ZodBoolean (description : option string)
| ZodArray (description : option string) (type : ZodType)
| ZodEnum (description : option string) (values : list string)
| ZodOptional (description : option string) (innerType : ZodType)
| ZodUnion (description : option string) (options : list ZodType)
| ZodOther (description : option string).

(** [def.description || ''] *)
Definition orEmpty (description : option string) : string :=
  match description with
  | Some text => text
  | None => ""
  end.

(** The objects [zodToJsonSchema] builds: [{ type, description }],
    [{ type: 'array', items, description }] and
    [{ type: 'string', enum, description }]. *)
Inductive JsonSchema : Type :=
| Plain (type : string) (description : string)
| ArrayOf (items : JsonSchema) (description : string)
| EnumOf (enum : list string) (description : string).

Definition schemaType (j : JsonSchema) : string :=
  match j with
  | Plain type _ => type
  | ArrayOf _ _ => "array"
  | EnumOf _ _ => "string"
  end.

Definition schemaDescription (j : JsonSchema) : string :=
  match j with
  | Plain _ description => description
  | ArrayOf _ description => description
  | EnumOf _ description => description
  end.

(** [zodToJsonSchema].  [None] is the TypeError raised on reading [_def] of
    [def.options[0]] when a union has no option. *)
Fixpoint zodToJsonSchema (zodSchema : ZodType) : option JsonSchema :=
  match zodSchema with
  | ZodString description => Some (Plain "string" (orEmpty description))
  | ZodNumber description => Some (Plain "number" (orEmpty description))
  | ZodBoolean description => Some (Plain "boolean" (orEmpty description))
  | ZodArray description type =>
      match zodToJsonSchema type with
      | Some items => Some (ArrayOf items (orEmpty description))
      | None => None
      end
  | ZodEnum description values => Some (EnumOf values (orEmpty description))
  | ZodOptional _ innerType => zodToJsonSchema innerType
  | ZodUnion _ options =>
      match options with
      | firstType :: _ => zodToJsonSchema firstType
      | [] => None
      end
  | ZodOther description => Some (Plain "string" (orEmpty description))
  end.

(** [schema._def.typeName === 'ZodOptional'] *)
Definition isOptional (schema : ZodType) : bool :=
  match schema with
  | ZodOptional _ _ => true
  | _ => false
  end.

(** The scalar type names of JSON Schema that the conversion uses. *)
Definition scalarName (type : string) : bool :=
  String.eqb type "string" || String.eqb type "number" || String.eqb type "boolean".

(** Every [type] in the schema is a scalar name or, with [items], an array. *)
Fixpoint scalarsAndArrays (j : JsonSchema) : bool :=
  match j with
  | Plain type _ => scalarName type
  | ArrayOf items _ => scalarsAndArrays items
  | EnumOf _ _ => true
  end.

(** [obj[key] = value] on an object kept as its entries in insertion order:
    an existing key keeps its place, a new key goes last. *)
Fixpoint assign {V : Type} (key : string) (value : V) (obj : list (string * V))
  : list (string * V) :=
  match obj with
  | [] => [(key, value)]
  | (k, v) :: rest =>
      if String.eqb k key then (k, value) :: rest
      else (k, v) :: assign key value rest
  end.

(** [obj[key]] *)
Fixpoint lookup {V : Type} (key : string) (obj : list (string * V)) : option V :=
  match obj with
  | [] => None
  | (k, v) :: rest => if String.eqb k key then Some v else lookup key rest
  end.

(** [inputSchema] of a listed tool. *)
Record InputSchema : Type := mkInputSchema {
  schema_type : string;
  properties : list (string * JsonSchema);
  required : list string
}.

Record McpTool : Type := mkMcpTool {
  mcp_name : string;
  mcp_description : string;
  inputSchema : InputSchema
}.

(** One turn of the [forEach] over [Object.entries(tool.schema)]. *)
Definition convertEntry (acc : list (string * JsonSchema) * list string)
    (entry : string * ZodType)
  : option (list (string * JsonSchema) * list string) :=
  let (properties, required) := acc in
  let (key, schema) := entry in
  let isOptional := isOptional schema in
  match zodToJsonSchema schema with
  | Some converted =>
      Some (assign key converted properties,
            if negb isOptional then (required ++ [key])%list else required)
  | None => None
  end.

Fixpoint forEachEntry (entries : list (string * ZodType))
    (acc : list (string * JsonSchema) * list string)
  : option (list (string * JsonSchema) * list string) :=
  match entries with
  | [] => Some acc
  | entry :: rest =>
      match convertEntry acc entry with
      | Some acc' => forEachEntry rest acc'
      | None => None
      end
  end.

(** A [tool] together with its [schema]: the entries of the object, in order
    (an object has each key once). *)
Record described (W Args : Type) : Type := mkDescribed {
  the_tool : tool W Args;
  schema : list (string * ZodType)
}.
Arguments mkDescribed {W Args} _ _.
Arguments the_tool {W Args} _.
Arguments schema {W Args} _.

(** The callback of [allTools.map] that builds [mcpTools]. *)
Definition toMcpTool {W Args : Type} (t : described W Args) : option McpTool :=
  match forEachEntry (schema t) ([], []) with
  | Some (properties, required) =>
      Some (mkMcpTool (name (the_tool t)) (description (the_tool t))
              (mkInputSchema "object" properties required))
  | None => None
  end.

(** [mcpTools]; an exception in one conversion aborts the whole map. *)
Fixpoint mcpTools {W Args : Type} (allTools : list (described W Args))
  : option (list McpTool) :=
  match allTools with
  | [] => Some []
  | t :: rest =>
      match toMcpTool t with
      | Some m =>
          match mcpTools rest with
          | Some ms => Some (m :: ms)
          | None => None
          end
      | None => None
      end
  end.

(** The schemas written in albums.ts and devices.ts. *)
Definition albumIdsSchema (description : string) : list (string * ZodType) :=
  [("albumIds", ZodArray (Some description) (ZodString None))].

Definition pagingSchema (limitDescription : string) : list (string * ZodType) :=
  [("limit", ZodOptional (Some limitDescription) (ZodNumber None));
   ("offset", ZodOptional (Some "Offset for pagination (0-based index)") (ZodNumber None))].

Definition albumTracksSchema : list (string * ZodType) :=
  (("albumId", ZodString (Some "The Spotify ID of the album"))
     :: pagingSchema "Maximum number of tracks to return (1-50)")%list.

Section Described.

Variable W : Type.
Variable handleSpotifyRequest : forall T : Type, (SpotifyApi W -> Eff W T) -> Eff W T.

(** The four [albumIds] tools and the device tool with their schemas. *)
Definition describedTools : list (described W AlbumIdsArgs) :=
  [mkDescribed (getMultipleAlbums W handleSpotifyRequest)
     (albumIdsSchema "Array of Spotify album IDs (max 20)");
   mkDescribed (saveAlbumsForUser W handleSpotifyRequest)
     (albumIdsSchema "Array of Spotify album IDs to save (max 20)");
   mkDescribed (removeAlbumsForUser W handleSpotifyRequest)
     (albumIdsSchema "Array of Spotify album IDs to remove (max 20)");
   mkDescribed (checkUsersSavedAlbums W handleSpotifyRequest)
     (albumIdsSchema "Array of Spotify album IDs to check (max 20)");
   mkDescribed (getAvailableDevicesTool W handleSpotifyRequest) []].

End Described.

End Schema.

(* ================================================================== *)
(** * The other album tools (albums.ts) *)
(* ================================================================== *)

Module Albums.

Import Tools.

(** The SDK's album as [getAlbum] reads it: the fields of [Album] and
    [album_type]. *)
Record AlbumDetails : Type := mkAlbumDetails {
  details : Album;
  album_type : string
}.

Record Track : Type := mkTrack {
  track_name : string;
  track_artists : list Artist;
  duration_ms : Z;
  track_id : string
}.

(** A page of results: [{ items, total }]. *)
Record Page (A : Type) : Type := mkPage {
  items : list A;
  total : nat
}.
Arguments mkPage {A} _ _.
Arguments items {A} _.
Arguments total {A} _.

(** [{ albums: Page }], the reply to [browse.getNewReleases]. *)
Record NewReleases : Type := mkNewReleases {
  albums : Page (option Album)
}.

(** [{ added_at, album }], an item of the saved albums. *)
Record SavedAlbum : Type := mkSavedAlbum {
  added_at : string;
  saved : option Album
}.

(** The object in [request.params.arguments], which the CallTool handler
    passes on as it came ([args as any]): the properties that the album tools
    read, each either absent ([undefined]) or of the type its schema
    declares. *)
Record ArgumentsObject : Type := mkArgumentsObject {
  arg_albumId : option string;
  arg_albumIds : option (list string);
  arg_limit : option Z;
  arg_offset : option Z
}.

(** The arguments of a call: [None] is a request without arguments. *)
Definition Arguments : Type := option ArgumentsObject.

(** The SDK object with the methods of all eight album tools and of the
    device tool: [core] holds those of [SpotifyApi].  An album id is passed
    on as the handler finds it, absent or not. *)
Record FullApi (W : Type) : Type := mkFullApi {
  core : SpotifyApi W;
  albums_get_one : option string -> Eff W AlbumDetails;
  albums_tracks : option string -> Z -> Z -> Eff W (Page (option Track));
  browse_getNewReleases : Z -> Z -> Eff W NewReleases;
  savedAlbums : Z -> Z -> Eff W (Page SavedAlbum)
}.
Arguments core {W} _.
Arguments albums_get_one {W} _ _ _.
Arguments albums_tracks {W} _ _ _ _ _.
Arguments browse_getNewReleases {W} _ _ _ _.
Arguments savedAlbums {W} _ _ _ _.

(** A destructuring default: [const { x = d } = args]. *)
Definition orDefault (d : Z) (x : option Z) : Z :=
  match x with
  | Some v => v
  | None => d
  end.

(** Template-literal rendering of an integer. *)
Definition show_number (z : Z) : string :=
  NilZero.string_of_int (Z.to_int z).

(** The tools whose handler reads [albumIds.length] before its try block. *)
Definition readsAlbumIds (toolName : string) : bool :=
  String.eqb toolName "getMultipleAlbums" || String.eqb toolName "saveAlbumsForUser"
  || String.eqb toolName "removeAlbumsForUser"
  || String.eqb toolName "checkUsersSavedAlbums".

(** The text with which each album tool reports a failed request. *)
Definition failurePrefix (toolName : string) : string :=
  if String.eqb toolName "getAlbum" then "Error getting album: "
  else if String.eqb toolName "getMultipleAlbums" then "Error getting albums: "
  else if String.eqb toolName "getAlbumTracks" then "Error getting album tracks: "
  else if String.eqb toolName "getNewReleases" then "Error getting new releases: "
  else if String.eqb toolName "getUsersSavedAlbums" then "Error getting saved albums: "
  else if String.eqb toolName "saveAlbumsForUser" then "Error saving albums: "
  else if String.eqb toolName "removeAlbumsForUser" then "Error removing albums: "
  else "Error checking saved albums: ".

Section Handlers.

Variable W : Type.

(** [handleSpotifyRequest] and [formatDuration] of utils.ts are not among the
    sources, and [toLocaleDateString] depends on the host's locale: the
    handlers are given for any of them. *)
Variable handleSpotifyRequest : forall T : Type, (FullApi W -> Eff W T) -> Eff W T.
Variable formatDuration : Z -> string.
Variable toLocaleDateString : string -> string.

(** The TypeErrors of the engine, whose text is the engine's own: the one
    raised when the handler of the named tool destructures [undefined]
    arguments, and the one raised on reading [length] of [undefined]. *)
Variable destructuringError : string -> JsError.
Variable lengthError : JsError.

(** [handleSpotifyRequest] as the tools of [Tools] use it. *)
Definition coreRequest (T : Type) (action : SpotifyApi W -> Eff W T) : Eff W T :=
  handleSpotifyRequest T (fun spotifyApi => action (core spotifyApi)).

Definition getAlbum_handler (args : Arguments) (_extra : SpotifyHandlerExtra)
  : Eff W ToolResult :=
  match args with
  | None => throw (destructuringError "getAlbum")
  | Some args =>
      let albumId := arg_albumId args in
      try_catch
        (album <- handleSpotifyRequest _
                    (fun spotifyApi => albums_get_one spotifyApi albumId) ;;
         let artists := artistNames (album_artists (details album)) in
         let releaseDate := release_date (details album) in
         let totalTracks := total_tracks (details album) in
         let albumType := album_type album in
         ret (textResult
                ("# Album Details" ++ nl ++ nl
                   ++ "**Name**: " ++ dq ++ album_name (details album) ++ dq ++ nl
                   ++ "**Artists**: " ++ artists ++ nl
                   ++ "**Release Date**: " ++ releaseDate ++ nl
                   ++ "**Type**: " ++ albumType ++ nl
                   ++ "**Total Tracks**: " ++ show_nat totalTracks ++ nl
                   ++ "**ID**: " ++ album_id (details album))))
        (fun error => ret (textResult ("Error getting album: " ++ errorText error)))
  end.

Definition formatTrack (offset : Z) (track : option Track) (i : nat) : string :=
  match track with
  | None => show_nat (i + 1) ++ ". [Track not found]"
  | Some track =>
      let artists := artistNames (track_artists track) in
      let duration := formatDuration (duration_ms track) in
      show_number (offset + Z.of_nat i + 1) ++ ". " ++ dq ++ track_name track ++ dq
        ++ " by " ++ artists ++ " (" ++ duration ++ ") - ID: " ++ track_id track
  end.

(** [(${offset + 1}-${offset + n} of ${total})] *)
Definition range (offset : Z) (n total : nat) : string :=
  "(" ++ show_number (offset + 1) ++ "-" ++ show_number (offset + Z.of_nat n)
    ++ " of " ++ show_nat total ++ ")".

Definition getAlbumTracks_handler (args : Arguments) (_extra : SpotifyHandlerExtra)
  : Eff W ToolResult :=
  match args with
  | None => throw (destructuringError "getAlbumTracks")
  | Some args =>
      let albumId := arg_albumId args in
      let limit := orDefault 20 (arg_limit args) in
      let offset := orDefault 0 (arg_offset args) in
      try_catch
        (tracks <- handleSpotifyRequest _
                     (fun spotifyApi => albums_tracks spotifyApi albumId limit offset) ;;
         if Nat.eqb (List.length (items tracks)) 0 then
           ret (textResult "No tracks found in this album")
         else
           let formattedTracks :=
             String.concat nl (mapi (formatTrack offset) (items tracks)) in
           ret (textResult
                  ("# Album Tracks "
                     ++ range offset (List.length (items tracks)) (total tracks)
                     ++ nl ++ nl ++ formattedTracks)))
        (fun error => ret (textResult ("Error getting album tracks: " ++ errorText error)))
  end.

Definition formatRelease (offset : Z) (album : option Album) (i : nat) : string :=
  match album with
  | None => show_nat (i + 1) ++ ". [Album not found]"
  | Some album =>
      let artists := artistNames (album_artists album) in
      show_number (offset + Z.of_nat i + 1) ++ ". " ++ dq ++ album_name album ++ dq
        ++ " by " ++ artists ++ " (" ++ release_date album ++ ") - ID: " ++ album_id album
  end.

Definition getNewReleases_handler (args : Arguments) (_extra : SpotifyHandlerExtra)
  : Eff W ToolResult :=
  match args with
  | None => throw (destructuringError "getNewReleases")
  | Some args =>
      let limit := orDefault 20 (arg_limit args) in
      let offset := orDefault 0 (arg_offset args) in
      try_catch
        (newReleases <- handleSpotifyRequest _
                          (fun spotifyApi => browse_getNewReleases spotifyApi limit offset) ;;
         if Nat.eqb (List.length (items (albums newReleases))) 0 then
           ret (textResult "No new releases found")
         else
           let formattedAlbums :=
             String.concat nl (mapi (formatRelease offset) (items (albums newReleases))) in
           ret (textResult
                  ("# New Releases "
                     ++ range offset (List.length (items (albums newReleases)))
                          (total (albums newReleases))
                     ++ nl ++ nl ++ formattedAlbums)))
        (fun error => ret (textResult ("Error getting new releases: " ++ errorText error)))
  end.

Definition formatSavedAlbum (offset : Z) (item : SavedAlbum) (i : nat) : string :=
  match saved item with
  | None => show_nat (i + 1) ++ ". [Album not found]"
  | Some album =>
      let artists := artistNames (album_artists album) in
      let addedDate := toLocaleDateString (added_at item) in
      show_number (offset + Z.of_nat i + 1) ++ ". " ++ dq ++ album_name album ++ dq
        ++ " by " ++ artists ++ " (" ++ release_date album ++ ") - ID: " ++ album_id album
        ++ " - Added: " ++ addedDate
  end.

Definition getUsersSavedAlbums_handler (args : Arguments) (_extra : SpotifyHandlerExtra)
  : Eff W ToolResult :=
  match args with
  | None => throw (destructuringError "getUsersSavedAlbums")
  | Some args =>
      let limit := orDefault 20 (arg_limit args) in
      let offset := orDefault 0 (arg_offset args) in
      try_catch
        (savedAlbums <- handleSpotifyRequest _
                          (fun spotifyApi => savedAlbums spotifyApi limit offset) ;;
         if Nat.eqb (List.length (items savedAlbums)) 0 then
           ret (textResult "You don't have any saved albums in your library")
         else
           let formattedAlbums :=
             String.concat nl (mapi (formatSavedAlbum offset) (items savedAlbums)) in
           ret (textResult
                  ("# Your Saved Albums "
                     ++ range offset (List.length (items savedAlbums)) (total savedAlbums)
                     ++ nl ++ nl ++ formattedAlbums)))
        (fun error => ret (textResult ("Error getting saved albums: " ++ errorText error)))
  end.

(** The first two statements of the four [albumIds] handlers on arguments
    that were not validated: [const { albumIds } = args] throws on
    [undefined] arguments and [albumIds.length] on an absent [albumIds], both
    before the try block; on an array the handler of [Tools] takes over. *)
Definition unvalidated (t : tool W AlbumIdsArgs) (args : Arguments)
    (_extra : SpotifyHandlerExtra) : Eff W ToolResult :=
  match args with
  | None => throw (destructuringError (name t))
  | Some args =>
      match arg_albumIds args with
      | None => throw lengthError
      | Some albumIds => handler t (mkAlbumIdsArgs albumIds) _extra
      end
  end.

Definition asCalled (t : tool W AlbumIdsArgs) : tool W Arguments :=
  mkTool (name t) (description t) (unvalidated t).

Definition getAlbum : tool W Arguments :=
  mkTool "getAlbum"
    "Get detailed information about a specific album by its Spotify ID"
    getAlbum_handler.

Definition getAlbumTracks : tool W Arguments :=
  mkTool "getAlbumTracks"
    "Get tracks from a specific album with pagination support"
    getAlbumTracks_handler.

Definition getNewReleases : tool W Arguments :=
  mkTool "getNewReleases"
    "Get a list of new album releases featured in Spotify"
    getNewReleases_handler.

Definition getUsersSavedAlbums : tool W Arguments :=
  mkTool "getUsersSavedAlbums"
    ("Get albums saved in the user's " ++ dq ++ "Your Music" ++ dq ++ " library")
    getUsersSavedAlbums_handler.

(** [albumTools], in the order of the export, as the dispatcher calls
    them. *)
Definition albumTools : list (tool W Arguments) :=
  [getAlbum;
   asCalled (getMultipleAlbums W coreRequest);
   getAlbumTracks;
   getNewReleases;
   getUsersSavedAlbums;
   asCalled (saveAlbumsForUser W coreRequest);
   asCalled (removeAlbumsForUser W coreRequest);
   asCalled (checkUsersSavedAlbums W coreRequest)].

End Handlers.

(** ** Scenarios *)

(** A [handleSpotifyRequest] that fails before running any action, as when
    the credentials can no longer be refreshed. *)
Definition refusing (T : Type) (action : FullApi unit -> Eff unit T) : Eff unit T :=
  fun w => (Thrown (ErrorObject "invalid_grant"), w).

Definition minutes (ms : Z) : string := show_number (ms / 60000) ++ " min".

Definition sameDate (date : string) : string := date.

Definition cannotDestructure (toolName : string) : JsError :=
  ErrorObject ("Cannot destructure the arguments of " ++ toolName ++ ": undefined").

Definition cannotReadLength : JsError :=
  ErrorObject "Cannot read properties of undefined (reading 'length')".

(** The album tools and the device tool over [refusing]. *)
Definition refusedTools : list (tool unit Arguments) :=
  (albumTools unit refusing minutes sameDate cannotDestructure cannotReadLength
     ++ deviceTools unit
          (coreRequest unit refusing))%list.

(** [getAlbumTracks] with the schema written for it. *)
Definition describedAlbumTracks : Schema.described unit Arguments :=
  Schema.mkDescribed (getAlbumTracks unit refusing minutes cannotDestructure)
    Schema.albumTracksSchema.

(** What the tool list holds for it. *)
Definition listedAlbumTracks : Schema.McpTool :=
  Schema.mkMcpTool "getAlbumTracks"
    "Get tracks from a specific album with pagination support"
    (Schema.mkInputSchema "object"
       [("albumId", Schema.Plain "string" "The Spotify ID of the album");
        ("limit", Schema.Plain "number" "");
        ("offset", Schema.Plain "number" "")]
       ["albumId"]).

(** A backend whose reply to the saved-albums check has one entry only. *)
Definition shortReply : Backend :=
  mkBackend
    (fun _ => Returned [])
    (fun _ => Returned tt)
    (fun _ => Returned tt)
    (fun _ => Returned [true])
    (Returned (mkDevices [])).

(** The tool list over the recording instance. *)
Definition listedTools : list Schema.McpTool :=
  match Schema.mcpTools (Schema.describedTools (list ApiRequest) (directRequest library)) with
  | Some listed => listed
  | None => []
  end.

End Albums.

(* ================================================================== *)
(** * Properties of the credential lifecycle *)
(* ================================================================== *)

Module CredentialFacts.

Import Credentials.

Section Facts.

Variable endpoint : nat -> TokenRequest -> EndpointReply.
Variables ConfigMissing PersistenceError : JsError.

Local Abbreviation createSpotifyApi := (createSpotifyApi endpoint ConfigMissing PersistenceError).
Local Abbreviation authorizeSpotify := (authorizeSpotify endpoint ConfigMissing PersistenceError).
Local Abbreviation loadSpotifyConfig := (loadSpotifyConfig ConfigMissing).
Local Abbreviation start := (createSpotifyApi_start endpoint ConfigMissing).
Local Abbreviation resume := (createSpotifyApi_resume endpoint PersistenceError).
Local Abbreviation run := (run endpoint ConfigMissing PersistenceError).
Local Abbreviation nextReply := (nextReply endpoint).

Lemma bootstrapped_guard (config : SpotifyConfig) :
  bootstrapped config ->
  truthy (accessToken config) && truthy (refreshToken config) = true.
Proof. intros [Ha Hr]. now rewrite Ha, Hr. Qed.

Lemma absent_guard (config : SpotifyConfig) :
  accessToken config = None \/ refreshToken config = None ->
  truthy (accessToken config) && truthy (refreshToken config) = false.
Proof.
  intros [H | H]; rewrite H; simpl; [reflexivity | apply andb_false_r].
Qed.

(** The code's test agrees with the spec's wording whenever the clock does
    not read a time before the epoch. *)
Lemma shouldRefresh_spec (config : SpotifyConfig) (now : Z) :
  0 <= now ->
  shouldRefresh config now = true <-> spec_expired config now.
Proof.
  intros Hnow. unfold shouldRefresh, spec_expired.
  destruct (expiresAt config) as [e |]; simpl.
  - rewrite orb_true_iff, Z.eqb_eq, Z.leb_le. split.
    + intros H. right. exists e. split; [reflexivity | lia].
    + intros [H | [e' [He' Hge]]]; [discriminate |].
      injection He' as <-. right. lia.
  - split; [intros _; now left | reflexivity].
Qed.

(** Staleness in the spec's sense always triggers the refresh. *)
Lemma spec_expired_shouldRefresh (config : SpotifyConfig) (now : Z) :
  spec_expired config now -> shouldRefresh config now = true.
Proof.
  unfold shouldRefresh, spec_expired.
  intros [H | [e [H Hge]]]; rewrite H; simpl; [reflexivity |].
  apply orb_true_iff. right. apply Z.leb_le. lia.
Qed.

Lemma future_not_shouldRefresh (config : SpotifyConfig) (now e : Z) :
  0 <= now -> expiresAt config = Some e -> now < e ->
  shouldRefresh config now = false.
Proof.
  intros Hnow He Hlt. unfold shouldRefresh. rewrite He. simpl.
  apply orb_false_iff. split; [apply Z.eqb_neq | apply Z.leb_gt]; lia.
Qed.

(** ** The three ways through [createSpotifyApi] *)

Lemma createSpotifyApi_skip (now : Z) (w : World) (config : SpotifyConfig) :
  document w = Some config ->
  truthy (accessToken config) && truthy (refreshToken config) = false ->
  createSpotifyApi now w = (Returned NoInstance, w).
Proof.
  intros Hdoc Hguard.
  unfold Credentials.createSpotifyApi, bind, Credentials.loadSpotifyConfig.
  rewrite Hdoc, Hguard. reflexivity.
Qed.

Lemma createSpotifyApi_cached (now : Z) (w : World) (config : SpotifyConfig) :
  document w = Some config ->
  bootstrapped config ->
  shouldRefresh config now = false ->
  createSpotifyApi now w = (Returned (WithAccessToken (accessToken config)), w).
Proof.
  intros Hdoc Hboot Hfresh.
  unfold Credentials.createSpotifyApi, bind, Credentials.loadSpotifyConfig.
  rewrite Hdoc, (bootstrapped_guard _ Hboot), Hfresh. reflexivity.
Qed.

(** With a stale token the outcome is decided by the endpoint's reply and by
    whether the document can be written. *)
Lemma createSpotifyApi_stale (now : Z) (w : World) (config : SpotifyConfig) :
  document w = Some config ->
  bootstrapped config ->
  shouldRefresh config now = true ->
  createSpotifyApi now w =
    match refreshResult (nextReply config w) with
    | Returned tokens =>
        if writable w
        then (Returned (WithAccessToken (Some (access_token tokens))),
              written (refreshed config now tokens) (sent (refreshRequest config) w))
        else (Thrown PersistenceError, sent (refreshRequest config) w)
    | Thrown error => (Thrown error, sent (refreshRequest config) w)
    end.
Proof.
  intros Hdoc Hboot Hstale.
  unfold Credentials.createSpotifyApi, bind, Credentials.loadSpotifyConfig.
  rewrite Hdoc, (bootstrapped_guard _ Hboot), Hstale.
  unfold refreshAccessToken, bind, post, Credentials.nextReply. simpl.
  destruct (refreshResult _) as [tokens | error]; [| reflexivity].
  unfold saveSpotifyConfig, ret. simpl.
  destruct (writable w); reflexivity.
Qed.

(** ** The claims about [createSpotifyApi] *)

(** C1, as the code has it.  When the clock does not read a time before the
    epoch, the code's test [!expiresAt || expiresAt <= now] is exactly the
    spec's predicate (expired iff [expiresAt] is absent or
    [now >= expiresAt]); for every stored record whose [expiresAt] is present
    and strictly in the future the call leaves the world as it was -- no
    token request, no write; and for every such record that holds both
    tokens it returns an instance built on the cached access token. *)
Theorem createSpotifyApi_unexpired (now : Z) :
  0 <= now ->
  (forall config, shouldRefresh config now = true <-> spec_expired config now) /\
  (forall w config e,
      document w = Some config ->
      expiresAt config = Some e ->
      now < e ->
      snd (createSpotifyApi now w) = w /\
      (bootstrapped config ->
       fst (createSpotifyApi now w) = Returned (WithAccessToken (accessToken config)))).
Proof.
  intros Hnow. split.
  - intros config. now apply shouldRefresh_spec.
  - intros w config e Hdoc He Hlt.
    pose proof (future_not_shouldRefresh config now e Hnow He Hlt) as Hfresh.
    split.
    + destruct (truthy (accessToken config) && truthy (refreshToken config)) eqn:Hguard.
      * apply andb_true_iff in Hguard.
        now rewrite (createSpotifyApi_cached now w config Hdoc Hguard Hfresh).
      * now rewrite (createSpotifyApi_skip now w config Hdoc Hguard).
    + intros Hboot.
      now rewrite (createSpotifyApi_cached now w config Hdoc Hboot Hfresh).
Qed.


(** C3.  After a successful refresh, loading the store yields a record whose
    [accessToken] is the refresher's value and whose [expiresAt] is exactly
    [now + expires_in * 1000] for the [now] read before the refresh (hence
    within every tolerance). *)
Theorem refresh_store_roundtrip
    (now : Z) (w : World) (config : SpotifyConfig) (data : TokenData) :
  document w = Some config ->
  bootstrapped config ->
  spec_expired config now ->
  writable w = true ->
  nextReply config w = Granted data ->
  exists record,
    loadSpotifyConfig (snd (createSpotifyApi now w))
      = (Returned record, snd (createSpotifyApi now w)) /\
    accessToken record = Some (data_access_token data) /\
    expiresAt record = Some (now + data_expires_in data * 1000) /\
    (forall tolerance e,
        0 <= tolerance ->
        expiresAt record = Some e ->
        Z.abs (e - (now + data_expires_in data * 1000)) <= tolerance).
Proof.
  intros Hdoc Hboot Hexp Hw Hreply.
  rewrite (createSpotifyApi_stale now w config Hdoc Hboot
             (spec_expired_shouldRefresh _ _ Hexp)).
  rewrite Hreply, Hw. simpl.
  eexists. split; [reflexivity |]. simpl. repeat split.
  intros tolerance e Htol He. injection He as <-. lia.
Qed.

(** C4, as the code has it.  Every successful refresh leaves the persisted
    [refreshToken] as it was, whether or not the endpoint's reply carries a
    new one: the refresher's result has no field for it. *)
Theorem refresh_keeps_refreshToken
    (now : Z) (w : World) (config : SpotifyConfig) (data : TokenData) :
  document w = Some config ->
  bootstrapped config ->
  spec_expired config now ->
  writable w = true ->
  nextReply config w = Granted data ->
  option_map refreshToken (document (snd (createSpotifyApi now w)))
    = Some (refreshToken config).
Proof.
  intros Hdoc Hboot Hexp Hw Hreply.
  rewrite (createSpotifyApi_stale now w config Hdoc Hboot
             (spec_expired_shouldRefresh _ _ Hexp)).
  rewrite Hreply, Hw. reflexivity.
Qed.

(** C5.  When the endpoint rejects the refresh, the call fails with the
    refresher's exception after that single request, and the stored document
    and the write log are untouched. *)
Theorem refresh_rejected_leaves_store
    (now : Z) (w : World) (config : SpotifyConfig) (error : JsError) :
  document w = Some config ->
  bootstrapped config ->
  spec_expired config now ->
  nextReply config w = Rejected error ->
  fst (createSpotifyApi now w) = Thrown error /\
  requests (snd (createSpotifyApi now w)) = (requests w ++ [refreshRequest config])%list /\
  document (snd (createSpotifyApi now w)) = document w /\
  writes (snd (createSpotifyApi now w)) = writes w.
Proof.
  intros Hdoc Hboot Hexp Hreply.
  rewrite (createSpotifyApi_stale now w config Hdoc Hboot
             (spec_expired_shouldRefresh _ _ Hexp)).
  rewrite Hreply. simpl. repeat split.
Qed.

(** C8, as the code has it.  For every stored record in which [accessToken]
    and [refreshToken] are both absent the call skips the token block: it
    sends no request, writes nothing and returns normally, without any
    instance built on a token. *)
Theorem createSpotifyApi_without_tokens
    (now : Z) (w : World) (config : SpotifyConfig) :
  document w = Some config ->
  accessToken config = None ->
  refreshToken config = None ->
  createSpotifyApi now w = (Returned NoInstance, w).
Proof.
  intros Hdoc Ha Hr. apply createSpotifyApi_skip with config; [assumption |].
  apply absent_guard. now left.
Qed.

(** ** The bootstrap *)

(** C7, as the code has it.  A bootstrap whose code exchange is granted
    writes, when the document can be written, a record with the stored
    identity and with [accessToken], [refreshToken] and
    [expiresAt = now + seconds * 1000] all taken from the exchange, none from
    the prior record, where [seconds] is the endpoint's [expires_in], or 3600
    when the endpoint reports 0; a bootstrap whose exchange the endpoint
    refuses fails with the exchange's exception; and a bootstrap that fails
    for whatever reason leaves the document and the write log as they
    were. *)
Theorem authorizeSpotify_all_or_nothing
    (code : string) (now : Z) (w : World) (config : SpotifyConfig) :
  document w = Some config ->
  (forall data,
      endpoint (List.length (requests w)) (codeRequest code config) = Granted data ->
      writable w = true ->
      authorizeSpotify code now w =
        (Returned tt,
         written (mkConfig (clientId config) (clientSecret config) (redirectUri config)
                    (Some (data_access_token data))
                    (data_refresh_token data)
                    (Some (now + (if Z.eqb (data_expires_in data) 0 then 3600
                                  else data_expires_in data) * 1000)))
           (sent (codeRequest code config) w)) /\
      (data_expires_in data <> 0 ->
       option_map expiresAt (document (snd (authorizeSpotify code now w)))
         = Some (Some (now + data_expires_in data * 1000))) /\
      (data_expires_in data = 0 ->
       option_map expiresAt (document (snd (authorizeSpotify code now w)))
         = Some (Some (now + 3600000)))) /\
  (forall error,
      endpoint (List.length (requests w)) (codeRequest code config) = Rejected error \/
      endpoint (List.length (requests w)) (codeRequest code config) = Unreachable error ->
      fst (authorizeSpotify code now w) = Thrown error) /\
  (forall error,
      fst (authorizeSpotify code now w) = Thrown error ->
      document (snd (authorizeSpotify code now w)) = document w /\
      writes (snd (authorizeSpotify code now w)) = writes w).
Proof.
  intros Hdoc.
  unfold Credentials.authorizeSpotify, bind, Credentials.loadSpotifyConfig.
  rewrite Hdoc.
  unfold exchangeCodeForToken, bind, post. simpl.
  destruct (endpoint (List.length (requests w)) (codeRequest code config))
    as [data | error | error]; simpl; unfold saveSpotifyConfig; simpl.
  - split; [| split].
    + intros data' Hdata Hw. injection Hdata as <-. rewrite Hw. simpl.
      split; [reflexivity |].
      split; intros Hlife.
      * apply Z.eqb_neq in Hlife. now rewrite Hlife.
      * rewrite Hlife. reflexivity.
    + intros error [H | H]; discriminate.
    + destruct (writable w); simpl; intros error H; [discriminate | now split].
  - repeat split; intros; try discriminate; try assumption.
    destruct H as [H | H]; congruence.
  - repeat split; intros; try discriminate; try assumption.
    destruct H as [H | H]; congruence.
Qed.

(** ** Two calls in one process *)

(** [createSpotifyApi] is its first half followed, when it suspended, by its
    second half. *)
Lemma createSpotifyApi_split (now : Z) (w : World) :
  createSpotifyApi now w =
    match start now w with
    | (inl result, w') => (result, w')
    | (inr p, w') => resume p w'
    end.
Proof.
  unfold Credentials.createSpotifyApi, Credentials.createSpotifyApi_start,
    Credentials.createSpotifyApi_resume, bind, Credentials.loadSpotifyConfig.
  destruct (document w) as [config |]; [| reflexivity].
  destruct (truthy (accessToken config) && truthy (refreshToken config));
    [| reflexivity].
  destruct (shouldRefresh config now); [| reflexivity].
  unfold refreshAccessToken, bind, post. simpl.
  destruct (refreshResult _) as [tokens | error]; [| reflexivity].
  unfold saveSpotifyConfig. simpl.
  destruct (writable w); reflexivity.
Qed.

Lemma start_stale (now : Z) (w : World) (config : SpotifyConfig) :
  document w = Some config ->
  bootstrapped config ->
  shouldRefresh config now = true ->
  start now w =
    (inr (mkPending config now (List.length (requests w))),
     sent (refreshRequest config) w).
Proof.
  intros Hdoc Hboot Hstale.
  unfold Credentials.createSpotifyApi_start, Credentials.loadSpotifyConfig.
  rewrite Hdoc, (bootstrapped_guard _ Hboot), Hstale. reflexivity.
Qed.

Lemma resume_granted (p : Pending) (w : World) (data : TokenData) :
  endpoint (p_ticket p) (refreshRequest (p_config p)) = Granted data ->
  writable w = true ->
  resume p w =
    (Returned (WithAccessToken (Some (data_access_token data))),
     written (refreshed (p_config p) (p_now p)
                (mkRefreshed (data_access_token data) (data_expires_in data))) w).
Proof.
  intros Hreply Hw.
  unfold Credentials.createSpotifyApi_resume, bind. rewrite Hreply. simpl.
  unfold saveSpotifyConfig. rewrite Hw. reflexivity.
Qed.

(** C6, as the code has it.  When two calls both start before either
    refresh reply is handled and both find the stored record stale, each
    sends its own refresh request -- two in all -- and each resolves to the
    access token of its own reply, in either order of delivery. *)
Theorem concurrent_calls_refresh_twice
    (now1 now2 : Z) (w : World) (config : SpotifyConfig) (d1 d2 : TokenData)
    (schedule : list Event) :
  document w = Some config ->
  bootstrapped config ->
  writable w = true ->
  spec_expired config now1 ->
  spec_expired config now2 ->
  endpoint (List.length (requests w)) (refreshRequest config) = Granted d1 ->
  endpoint (S (List.length (requests w))) (refreshRequest config) = Granted d2 ->
  schedule = [Invoke 0 now1; Invoke 1 now2; Deliver 0; Deliver 1] \/
  schedule = [Invoke 0 now1; Invoke 1 now2; Deliver 1; Deliver 0] ->
  requests (world (run schedule (boot w)))
    = (requests w ++ [refreshRequest config; refreshRequest config])%list /\
  tasks (run schedule (boot w)) 0%nat
    = Settled (Returned (WithAccessToken (Some (data_access_token d1)))) /\
  tasks (run schedule (boot w)) 1%nat
    = Settled (Returned (WithAccessToken (Some (data_access_token d2)))).
Proof.
  intros Hdoc Hboot Hw Hexp1 Hexp2 Hd1 Hd2 Hsched.
  apply spec_expired_shouldRefresh in Hexp1, Hexp2.
  assert (Hlen : List.length (requests (sent (refreshRequest config) w))
                 = S (List.length (requests w))).
  { simpl. rewrite length_app. simpl. lia. }
  assert (Hstart2 : start now2 (sent (refreshRequest config) w)
                    = (inr (mkPending config now2 (S (List.length (requests w)))),
                       sent (refreshRequest config) (sent (refreshRequest config) w))).
  { rewrite (start_stale now2 (sent (refreshRequest config) w) config Hdoc Hboot Hexp2).
    now rewrite Hlen. }
  destruct Hsched as [-> | ->]; unfold Credentials.run, boot; simpl;
    rewrite (start_stale now1 w config Hdoc Hboot Hexp1); simpl;
    rewrite Hstart2; simpl.
  - rewrite (resume_granted (mkPending config now1 _) _ d1 Hd1) by exact Hw. simpl.
    rewrite (resume_granted (mkPending config now2 _) _ d2 Hd2) by exact Hw. simpl.
    rewrite <- app_assoc. repeat split.
  - rewrite (resume_granted (mkPending config now2 _) _ d2 Hd2) by exact Hw. simpl.
    rewrite (resume_granted (mkPending config now1 _) _ d1 Hd1) by exact Hw. simpl.
    rewrite <- app_assoc. repeat split.
Qed.

End Facts.

(** ** The scenarios *)

Lemma staleRecord_expired : spec_expired staleRecord 1000000.
Proof. right. exists 999000. split; [reflexivity | lia]. Qed.

Lemma staleRecord_bootstrapped : bootstrapped staleRecord.
Proof. split; reflexivity. Qed.

(** Scenario of the spec: the record with A1 expiring in 60 seconds gives
    back A1 and the world is untouched. *)
Lemma createSpotifyApi_unexpired_scenario :
  snd (createSpotifyApi granting configMissing persistenceError 1000000 (stored freshRecord))
    = stored freshRecord /\
  fst (createSpotifyApi granting configMissing persistenceError 1000000 (stored freshRecord))
    = Returned (WithAccessToken (Some "A1")).
Proof.
  destruct (createSpotifyApi_unexpired granting configMissing persistenceError
              1000000 ltac:(lia)) as [_ H].
  destruct (H (stored freshRecord) freshRecord 1060000 eq_refl eq_refl ltac:(lia))
    as [Hworld Hresult].
  exact (conj Hworld (Hresult (conj eq_refl eq_refl))).
Defined.


Lemma refresh_store_roundtrip_scenario :
  exists record,
    loadSpotifyConfig configMissing
      (snd (createSpotifyApi granting configMissing persistenceError 1000000
              (stored staleRecord)))
      = (Returned record,
         snd (createSpotifyApi granting configMissing persistenceError 1000000
                (stored staleRecord))) /\
    accessToken record = Some "A2" /\
    expiresAt record = Some (1000000 + 3600 * 1000) /\
    (forall tolerance e,
        0 <= tolerance ->
        expiresAt record = Some e ->
        Z.abs (e - (1000000 + 3600 * 1000)) <= tolerance).
Proof.
  exact (refresh_store_roundtrip granting configMissing persistenceError
           1000000 (stored staleRecord) staleRecord
           (mkTokenData "A2" 3600 (Some "R2")) eq_refl
           staleRecord_bootstrapped staleRecord_expired eq_refl eq_refl).
Defined.

Lemma refresh_keeps_refreshToken_scenario :
  option_map refreshToken
    (document (snd (createSpotifyApi granting configMissing persistenceError 1000000
                      (stored staleRecord))))
    = Some (Some "R1").
Proof.
  exact (refresh_keeps_refreshToken granting configMissing persistenceError
           1000000 (stored staleRecord) staleRecord
           (mkTokenData "A2" 3600 (Some "R2")) eq_refl
           staleRecord_bootstrapped staleRecord_expired eq_refl eq_refl).
Defined.

(** Against C4 as stated: the endpoint's reply carries the new refresh token
    R2, and the refresh token persisted by the refresh is still R1. *)
Lemma rotated_refreshToken_dropped :
  nextReply granting staleRecord (stored staleRecord)
    = Granted (mkTokenData "A2" 3600 (Some "R2")) /\
  option_map refreshToken
    (document (snd (createSpotifyApi granting configMissing persistenceError 1000000
                      (stored staleRecord))))
    = Some (Some "R1") /\
  String.eqb "R1" "R2" = false.
Proof. repeat split. Qed.

Lemma refresh_rejected_scenario :
  fst (createSpotifyApi revoking configMissing persistenceError 1000000 (stored staleRecord))
    = Thrown (ErrorObject "invalid_grant") /\
  requests (snd (createSpotifyApi revoking configMissing persistenceError 1000000
                   (stored staleRecord)))
    = ([] ++ [refreshRequest staleRecord])%list /\
  document (snd (createSpotifyApi revoking configMissing persistenceError 1000000
                   (stored staleRecord)))
    = Some staleRecord /\
  writes (snd (createSpotifyApi revoking configMissing persistenceError 1000000
                 (stored staleRecord)))
    = [].
Proof.
  exact (refresh_rejected_leaves_store revoking configMissing persistenceError
           1000000 (stored staleRecord) staleRecord (ErrorObject "invalid_grant")
           eq_refl staleRecord_bootstrapped staleRecord_expired eq_refl).
Defined.

Lemma createSpotifyApi_without_tokens_scenario :
  createSpotifyApi granting configMissing persistenceError 1000000 (stored emptyRecord)
    = (Returned NoInstance, stored emptyRecord).
Proof.
  exact (createSpotifyApi_without_tokens granting configMissing persistenceError
           1000000 (stored emptyRecord) emptyRecord eq_refl eq_refl eq_refl).
Defined.

(** Against C8 as stated: on the record without tokens the call does not
    fail; it returns, and nothing was sent or written. *)
Lemma without_tokens_no_failure :
  isThrown (fst (createSpotifyApi granting configMissing persistenceError 1000000
                   (stored emptyRecord))) = false /\
  snd (createSpotifyApi granting configMissing persistenceError 1000000
         (stored emptyRecord)) = stored emptyRecord.
Proof. split; reflexivity. Qed.

(** A bootstrap over the stale record with a lifetime of 1800 seconds: what
    is stored afterwards holds the exchanged tokens only. *)
Lemma authorizeSpotify_scenario :
  authorizeSpotify (exchanging 1800) configMissing persistenceError "code" 1000000
    (stored staleRecord)
    = (Returned tt,
       mkWorld (Some (identity (Some "A0") (Some "R0") (Some 2800000))) true
         [codeRequest "code" staleRecord]
         [identity (Some "A0") (Some "R0") (Some 2800000)]) /\
  option_map expiresAt
    (document (snd (authorizeSpotify (exchanging 1800) configMissing persistenceError
                      "code" 1000000 (stored staleRecord))))
    = Some (Some (1000000 + 1800 * 1000)).
Proof.
  destruct (authorizeSpotify_all_or_nothing (exchanging 1800) configMissing
              persistenceError "code" 1000000 (stored staleRecord) staleRecord eq_refl)
    as [H _].
  destruct (H (mkTokenData "A0" 1800 (Some "R0")) eq_refl eq_refl) as [Hrun [Hlife _]].
  exact (conj Hrun (Hlife ltac:(discriminate))).
Defined.

(** Against C7 as stated: the endpoint grants the code with a lifetime of 0
    seconds, and the expiry stored by the bootstrap at clock reading 1000000
    is 4600000, not [1000000 + 0 * 1000]. *)
Lemma zero_lifetime_stored_as_an_hour :
  exchanging 0 0 (codeRequest "code" staleRecord)
    = Granted (mkTokenData "A0" 0 (Some "R0")) /\
  authorizeSpotify (exchanging 0) configMissing persistenceError "code" 1000000
    (stored staleRecord)
    = (Returned tt,
       mkWorld (Some (identity (Some "A0") (Some "R0") (Some 4600000))) true
         [codeRequest "code" staleRecord]
         [identity (Some "A0") (Some "R0") (Some 4600000)]) /\
  Z.eqb 4600000 (1000000 + 0 * 1000) = false.
Proof. repeat split. Qed.

(** Against C1 as stated: the record holds the access token A1 and an expiry
    that is strictly in the future, but no refresh token; the call skips the
    token block and hands back no instance built on A1. *)
Lemma unexpired_one_token_skipped :
  accessToken accessOnlyFresh = Some "A1" /\
  expiresAt accessOnlyFresh = Some 1060000 /\
  Z.ltb 1000000 1060000 = true /\
  createSpotifyApi granting configMissing persistenceError 1000000 (stored accessOnlyFresh)
    = (Returned NoInstance, stored accessOnlyFresh).
Proof. repeat split. Qed.


Lemma concurrent_calls_scenario :
  requests (world race) = ([] ++ [refreshRequest staleRecord; refreshRequest staleRecord])%list /\
  tasks race 0%nat = Settled (Returned (WithAccessToken (Some "A2"))) /\
  tasks race 1%nat = Settled (Returned (WithAccessToken (Some "A3"))).
Proof.
  exact (concurrent_calls_refresh_twice granting configMissing persistenceError
           1000000 1000000 (stored staleRecord) staleRecord
           (mkTokenData "A2" 3600 (Some "R2")) (mkTokenData "A3" 3600 (Some "R2"))
           [Invoke 0 1000000; Invoke 1 1000000; Deliver 0; Deliver 1]
           eq_refl staleRecord_bootstrapped eq_refl
           staleRecord_expired staleRecord_expired eq_refl eq_refl
           (or_introl eq_refl)).
Defined.

(** Against C6 as stated: two callers that both find the record stale make
    two refresh requests, and resolve to different access tokens. *)
Lemma concurrent_calls_two_refreshes :
  refreshCount (world race) = 2%nat /\
  tasks race 0%nat = Settled (Returned (WithAccessToken (Some "A2"))) /\
  tasks race 1%nat = Settled (Returned (WithAccessToken (Some "A3"))) /\
  String.eqb "A2" "A3" = false.
Proof. repeat split. Qed.

End CredentialFacts.

(* ================================================================== *)
(** * Properties of the tools and of the dispatcher *)
(* ================================================================== *)

Module ToolFacts.

Import Tools Server.

(** C9.  Each of the four album tools that take an [albumIds] array, called
    with the empty array, returns the text result [Error: No album IDs
    provided] and leaves the world as it found it, whatever
    [handleSpotifyRequest] is: no request reaches the Spotify API. *)
Theorem empty_albumIds_no_request
    (W : Type)
    (handleSpotifyRequest : forall T : Type, (SpotifyApi W -> Eff W T) -> Eff W T)
    (extra : SpotifyHandlerExtra) (w : W) :
  List.map name (albumIdsTools W handleSpotifyRequest)
    = ["getMultipleAlbums"; "saveAlbumsForUser"; "removeAlbumsForUser";
       "checkUsersSavedAlbums"] /\
  List.Forall
    (fun t => handler t (mkAlbumIdsArgs []) extra w
              = (Returned (textResult "Error: No album IDs provided"), w))
    (albumIdsTools W handleSpotifyRequest).
Proof.
  split; [reflexivity |].
  unfold albumIdsTools. repeat apply List.Forall_cons; try apply List.Forall_nil;
    reflexivity.
Qed.

(** By contrast, with a non-empty array each of the four tools sends exactly
    one request in the recording instance. *)
Lemma nonempty_albumIds_one_request
    (b : Backend) (id : string) (ids : list string)
    (extra : SpotifyHandlerExtra) (log : list ApiRequest) :
  List.map
    (fun t => snd (handler t (mkAlbumIdsArgs (id :: ids)) extra log))
    (albumIdsTools (list ApiRequest) (directRequest b))
  = [(log ++ [GetAlbums (id :: ids)])%list;
     (log ++ [SaveAlbums (id :: ids)])%list;
     (log ++ [RemoveAlbums (id :: ids)])%list;
     (log ++ [HasSavedAlbums (id :: ids)])%list].
Proof.
  unfold albumIdsTools. simpl.
  unfold getMultipleAlbums_handler, saveAlbumsForUser_handler,
    removeAlbumsForUser_handler, checkUsersSavedAlbums_handler,
    try_catch, bind, directRequest, request. simpl.
  destruct (onGetAlbums b (id :: ids)) as [albums |];
    destruct (onSaveAlbums b (id :: ids));
    destruct (onRemoveAlbums b (id :: ids));
    destruct (onHasSavedAlbums b (id :: ids)); simpl;
    try (destruct (Nat.eqb (List.length albums) 0)); reflexivity.
Qed.

Example getMultipleAlbums_formats :
  fst (getMultipleAlbums_handler (list ApiRequest) (directRequest library)
         (mkAlbumIdsArgs ["0ETFjACtuP2ADo6LFhL6HN"; "nope"]) mockExtra [])
  = Returned
      (textResult
         ("# Multiple Albums" ++ nl ++ nl
            ++ "1. " ++ dq ++ "Abbey Road" ++ dq
            ++ " by The Beatles (1969-09-26) - 17 tracks - ID: 0ETFjACtuP2ADo6LFhL6HN"
            ++ nl ++ "2. [Album not found]")).
Proof. reflexivity. Qed.

Example saveAlbumsForUser_counts :
  fst (saveAlbumsForUser_handler (list ApiRequest) (directRequest library)
         (mkAlbumIdsArgs ["a"]) mockExtra [])
  = Returned (textResult "Successfully saved 1 album to your library").
Proof. reflexivity. Qed.

Example checkUsersSavedAlbums_reports_failure :
  fst (checkUsersSavedAlbums_handler (list ApiRequest) (directRequest unauthorized)
         (mkAlbumIdsArgs ["a"]) mockExtra [])
  = Returned (textResult "Error checking saved albums: Unauthorized").
Proof. reflexivity. Qed.

Section DispatchFacts.

Variables W Args : Type.
Variable allTools : list (tool W Args).

Lemma findTool_none (name : string) :
  ~ List.In name (List.map Tools.name allTools) ->
  findTool W Args allTools name = None.
Proof.
  unfold findTool. induction allTools as [| t rest IH]; simpl; intros Hnot.
  - reflexivity.
  - destruct (String.eqb (Tools.name t) name) eqn:Heq.
    + apply String.eqb_eq in Heq. exfalso. apply Hnot. now left.
    + apply IH. intros Hin. apply Hnot. now right.
Qed.

(** The tool the dispatcher selects is registered under the requested name. *)
Lemma findTool_some (name : string) (t : tool W Args) :
  findTool W Args allTools name = Some t ->
  List.In t allTools /\ Tools.name t = name.
Proof.
  unfold findTool. intros H. apply List.find_some in H as [Hin Heq].
  split; [assumption | now apply String.eqb_eq].
Qed.

(** With distinct names every registered tool is the one selected by its
    name. *)
Lemma findTool_registered (t : tool W Args) :
  List.NoDup (List.map Tools.name allTools) ->
  List.In t allTools ->
  findTool W Args allTools (Tools.name t) = Some t.
Proof.
  unfold findTool. induction allTools as [| u rest IH]; simpl; intros Hnd Hin.
  - contradiction.
  - inversion Hnd as [| ? ? Hfresh Hrest]; subst.
    destruct Hin as [-> | Hin].
    + now rewrite String.eqb_refl.
    + destruct (String.eqb (Tools.name u) (Tools.name t)) eqn:Heq.
      * apply String.eqb_eq in Heq. exfalso. apply Hfresh. rewrite Heq.
        now apply List.in_map.
      * now apply IH.
Qed.

(** A handler that returns has its content passed on, without [isError]. *)
Lemma callTool_returns
    (name : string) (args : Args) (w w' : W) (t : tool W Args) (result : ToolResult) :
  findTool W Args allTools name = Some t ->
  handler t args mockExtra w = (Returned result, w') ->
  callTool W Args allTools name args w
    = (Returned (mkCallToolResult (content result) None), w').
Proof.
  intros Hfind Hrun. unfold callTool, try_catch, bind. now rewrite Hfind, Hrun.
Qed.

(** C10.  A request whose tool name is not in the catalog makes the
    dispatcher throw [Tool not found: <name>], the world untouched; a request
    for a registered tool whose handler throws makes it return a text content
    with the handler's message and [isError] set to true. *)
Theorem callTool_errors :
  (forall name args w,
      ~ List.In name (List.map Tools.name allTools) ->
      callTool W Args allTools name args w
        = (Thrown (ErrorObject ("Tool not found: " ++ name)), w)) /\
  (forall name args w w' t error,
      findTool W Args allTools name = Some t ->
      handler t args mockExtra w = (Thrown error, w') ->
      callTool W Args allTools name args w
        = (Returned
             (mkCallToolResult
                [mkContent "text"
                   ("Error executing tool " ++ dq ++ name ++ dq ++ ": " ++ errorText error)]
                (Some true)),
           w')) /\
  (forall args w w' t error,
      List.NoDup (List.map Tools.name allTools) ->
      List.In t allTools ->
      handler t args mockExtra w = (Thrown error, w') ->
      callTool W Args allTools (Tools.name t) args w
        = (Returned
             (mkCallToolResult
                [mkContent "text"
                   ("Error executing tool " ++ dq ++ Tools.name t ++ dq ++ ": "
                      ++ errorText error)]
                (Some true)),
           w')).
Proof.
  split; [| split].
  - intros name args w Hnot. unfold callTool.
    now rewrite (findTool_none name Hnot).
  - intros name args w w' t error Hfind Hrun.
    unfold callTool, try_catch, bind. now rewrite Hfind, Hrun.
  - intros args w w' t error Hnd Hin Hrun.
    unfold callTool, try_catch, bind.
    now rewrite (findTool_registered t Hnd Hin), Hrun.
Qed.

End DispatchFacts.

(** The device tool has no try block of its own: when the API refuses, its
    exception reaches the dispatcher, which turns it into an error result;
    an unknown name is thrown back. *)
Lemma callTool_errors_scenario :
  callTool _ _ (recordedTools unauthorized) "playMusic" (mkAlbumIdsArgs []) []
    = (Thrown (ErrorObject "Tool not found: playMusic"), []) /\
  callTool _ _ (recordedTools unauthorized) "devices" (mkAlbumIdsArgs []) []
    = (Returned
         (mkCallToolResult
            [mkContent "text"
               ("Error executing tool " ++ dq ++ "devices" ++ dq ++ ": Unauthorized")]
            (Some true)),
       [GetAvailableDevices]).
Proof.
  destruct (callTool_errors _ _ (recordedTools unauthorized)) as [Hmissing [Hthrows _]].
  split.
  - apply Hmissing. simpl. intros H.
    repeat (destruct H as [H | H]; [discriminate |]). exact H.
  - exact (Hthrows "devices" (mkAlbumIdsArgs []) [] [GetAvailableDevices]
             (getAvailableDevicesTool _ (directRequest unauthorized))
             (ErrorObject "Unauthorized") eq_refl eq_refl).
Defined.

(** Through the dispatcher, the empty [albumIds] array gives the tool's own
    text and no error flag. *)
Example callTool_empty_albumIds :
  callTool _ _ (recordedTools library) "saveAlbumsForUser" (mkAlbumIdsArgs []) []
    = (Returned (mkCallToolResult [mkContent "text" "Error: No album IDs provided"] None),
       []).
Proof. reflexivity. Qed.

End ToolFacts.

(* ================================================================== *)
(** * Further properties of the credential lifecycle *)
(* ================================================================== *)

Module CredentialMore.

Import Credentials CredentialFacts.

Section More.

Variable endpoint : nat -> TokenRequest -> EndpointReply.
Variables ConfigMissing PersistenceError : JsError.

Local Abbreviation createSpotifyApi := (createSpotifyApi endpoint ConfigMissing PersistenceError).
Local Abbreviation run := (run endpoint ConfigMissing PersistenceError).
Local Abbreviation nextReply := (nextReply endpoint).

(** Every way through [createSpotifyApi], by the guard, the staleness test,
    the endpoint's reply and the writability of the document. *)
Lemma createSpotifyApi_cases (now : Z) (w : World) (config : SpotifyConfig) :
  document w = Some config ->
  createSpotifyApi now w = (Returned NoInstance, w) \/
  createSpotifyApi now w = (Returned (WithAccessToken (accessToken config)), w) \/
  (exists error,
      createSpotifyApi now w = (Thrown error, sent (refreshRequest config) w)) \/
  (exists tokens,
      createSpotifyApi now w =
        (Returned (WithAccessToken (Some (access_token tokens))),
         written (refreshed config now tokens) (sent (refreshRequest config) w))).
Proof.
  intros Hdoc.
  destruct (truthy (accessToken config) && truthy (refreshToken config)) eqn:Hguard.
  - apply andb_true_iff in Hguard.
    destruct (shouldRefresh config now) eqn:Hstale.
    + right. right.
      rewrite (createSpotifyApi_stale endpoint ConfigMissing PersistenceError
                 now w config Hdoc Hguard Hstale).
      destruct (refreshResult _) as [tokens | error].
      * destruct (writable w); [right; now exists tokens | left; now eexists].
      * left. now exists error.
    + right. left.
      apply (createSpotifyApi_cached endpoint ConfigMissing PersistenceError
               now w config Hdoc Hguard Hstale).
  - left.
    apply (createSpotifyApi_skip endpoint ConfigMissing PersistenceError
             now w config Hdoc Hguard).
Qed.

(** Whatever the outcome of a call -- skipped, cached, refreshed or failed --
    the stored document keeps its client identity, its redirect URI and its
    refresh token, and the document stays as writable as it was. *)
Theorem createSpotifyApi_keeps_identity (now : Z) (w : World) (config : SpotifyConfig) :
  document w = Some config ->
  exists config',
    document (snd (createSpotifyApi now w)) = Some config' /\
    clientId config' = clientId config /\
    clientSecret config' = clientSecret config /\
    redirectUri config' = redirectUri config /\
    refreshToken config' = refreshToken config /\
    writable (snd (createSpotifyApi now w)) = writable w.
Proof.
  intros Hdoc.
  destruct (createSpotifyApi_cases now w config Hdoc)
    as [H | [H | [[error H] | [tokens H]]]]; rewrite H; simpl.
  - exists config. repeat split; assumption.
  - exists config. repeat split; assumption.
  - exists config. repeat split; assumption.
  - eexists. repeat split.
Qed.

(** One call sends at most one token request -- the refresh grant carrying
    the stored refresh token and client identity -- and writes the document
    at most once, and only after that request. *)
Theorem createSpotifyApi_one_request_at_most
    (now : Z) (w : World) (config : SpotifyConfig) :
  document w = Some config ->
  (requests (snd (createSpotifyApi now w)) = requests w /\
   writes (snd (createSpotifyApi now w)) = writes w) \/
  (requests (snd (createSpotifyApi now w))
     = (requests w ++ [RefreshGrant (refreshToken config) (clientId config)
                         (clientSecret config)])%list /\
   (writes (snd (createSpotifyApi now w)) = writes w \/
    exists record,
      writes (snd (createSpotifyApi now w)) = (writes w ++ [record])%list /\
      document (snd (createSpotifyApi now w)) = Some record)).
Proof.
  intros Hdoc.
  destruct (createSpotifyApi_cases now w config Hdoc)
    as [H | [H | [[error H] | [tokens H]]]]; rewrite H; simpl.
  - left. now split.
  - left. now split.
  - right. split; [reflexivity | now left].
  - right. split; [reflexivity |]. right. eexists. now split.
Qed.

(** Staleness is monotone in the clock: a record that the code refreshes at
    one reading is refreshed at every later reading. *)
Theorem shouldRefresh_monotone (config : SpotifyConfig) (now later : Z) :
  now <= later ->
  shouldRefresh config now = true ->
  shouldRefresh config later = true.
Proof.
  unfold shouldRefresh. intros Hle.
  destruct (expiresAt config) as [e |]; simpl; [| reflexivity].
  rewrite !orb_true_iff, !Z.leb_le. intros [H | H]; [now left | right; lia].
Qed.

(** After a successful refresh the next call, made while the new token's
    lifetime lasts, sends nothing, writes nothing and returns that same
    token -- provided the endpoint's access token is not the empty string. *)
Theorem refresh_then_reuse
    (now later : Z) (w : World) (config : SpotifyConfig) (data : TokenData) :
  document w = Some config ->
  bootstrapped config ->
  spec_expired config now ->
  writable w = true ->
  nextReply config w = Granted data ->
  data_access_token data <> "" ->
  0 <= later < now + data_expires_in data * 1000 ->
  createSpotifyApi later (snd (createSpotifyApi now w))
    = (Returned (WithAccessToken (Some (data_access_token data))),
       snd (createSpotifyApi now w)).
Proof.
  intros Hdoc Hboot Hexp Hw Hreply Htoken Hlater.
  rewrite (createSpotifyApi_stale endpoint ConfigMissing PersistenceError
             now w config Hdoc Hboot (spec_expired_shouldRefresh _ _ Hexp)).
  rewrite Hreply, Hw. simpl.
  pose (tokens := mkRefreshed (data_access_token data) (data_expires_in data)).
  apply (createSpotifyApi_cached endpoint ConfigMissing PersistenceError later
           (written (refreshed config now tokens) (sent (refreshRequest config) w))
           (refreshed config now tokens)).
  - reflexivity.
  - destruct Hboot as [_ Hr]. split; [| exact Hr]. simpl.
    apply negb_true_iff, String.eqb_neq, Htoken.
  - apply (future_not_shouldRefresh _ later (now + data_expires_in data * 1000));
      [lia | reflexivity | lia].
Qed.

(** A record written by the bootstrap statements is not stale at the clock
    reading of the bootstrap nor later within the token's lifetime, whenever
    the endpoint reports a non-negative [expires_in] (0 is replaced by 3600):
    the next call returns the exchanged access token without any request. *)
Theorem bootstrap_then_use
    (now later : Z) (w : World) (config : SpotifyConfig) (data : TokenData) :
  document w = Some (authorized config now (exchanged data)) ->
  data_access_token data <> "" ->
  truthy (data_refresh_token data) = true ->
  0 <= data_expires_in data ->
  0 <= now <= later ->
  later < now + x_expires_in (exchanged data) * 1000 ->
  createSpotifyApi later w
    = (Returned (WithAccessToken (Some (data_access_token data))), w).
Proof.
  intros Hdoc Htoken Hrefresh Hlife Hnow Hlater.
  apply (createSpotifyApi_cached endpoint ConfigMissing PersistenceError later w
           (authorized config now (exchanged data)) Hdoc).
  - split; [| exact Hrefresh]. simpl. apply negb_true_iff, String.eqb_neq, Htoken.
  - apply (future_not_shouldRefresh _ later
             (now + x_expires_in (exchanged data) * 1000));
      [lia | reflexivity | lia].
Qed.

(** In the race of two callers on a stale record the second write is made
    from the second caller's own copy of the config: the document ends up
    holding the token of the reply handled last (for delivery order 1, 0 that
    is the token issued first), and both writes are in the log. *)
Theorem race_last_reply_wins
    (now1 now2 : Z) (w : World) (config : SpotifyConfig) (d1 d2 : TokenData) :
  document w = Some config ->
  bootstrapped config ->
  writable w = true ->
  spec_expired config now1 ->
  spec_expired config now2 ->
  endpoint (List.length (requests w)) (refreshRequest config) = Granted d1 ->
  endpoint (S (List.length (requests w))) (refreshRequest config) = Granted d2 ->
  let r1 := refreshed config now1 (mkRefreshed (data_access_token d1) (data_expires_in d1)) in
  let r2 := refreshed config now2 (mkRefreshed (data_access_token d2) (data_expires_in d2)) in
  (document (world (run [Invoke 0 now1; Invoke 1 now2; Deliver 0; Deliver 1] (boot w)))
     = Some r2 /\
   writes (world (run [Invoke 0 now1; Invoke 1 now2; Deliver 0; Deliver 1] (boot w)))
     = (writes w ++ [r1; r2])%list) /\
  (document (world (run [Invoke 0 now1; Invoke 1 now2; Deliver 1; Deliver 0] (boot w)))
     = Some r1 /\
   writes (world (run [Invoke 0 now1; Invoke 1 now2; Deliver 1; Deliver 0] (boot w)))
     = (writes w ++ [r2; r1])%list).
Proof.
  intros Hdoc Hboot Hw Hexp1 Hexp2 Hd1 Hd2 r1 r2.
  apply spec_expired_shouldRefresh in Hexp1, Hexp2.
  assert (Hlen : List.length (requests (sent (refreshRequest config) w))
                 = S (List.length (requests w))).
  { simpl. rewrite length_app. simpl. lia. }
  assert (Hstart2 : createSpotifyApi_start endpoint ConfigMissing now2
                      (sent (refreshRequest config) w)
                    = (inr (mkPending config now2 (S (List.length (requests w)))),
                       sent (refreshRequest config) (sent (refreshRequest config) w))).
  { rewrite (start_stale endpoint ConfigMissing now2
               (sent (refreshRequest config) w) config Hdoc Hboot Hexp2).
    now rewrite Hlen. }
  split; unfold Credentials.run, boot; simpl;
    rewrite (start_stale endpoint ConfigMissing now1 w config Hdoc Hboot Hexp1); simpl;
    rewrite Hstart2; simpl.
  - rewrite (resume_granted endpoint PersistenceError
               (mkPending config now1 _) _ d1 Hd1) by exact Hw. simpl.
    rewrite (resume_granted endpoint PersistenceError
               (mkPending config now2 _) _ d2 Hd2) by exact Hw. simpl.
    rewrite <- app_assoc. now split.
  - rewrite (resume_granted endpoint PersistenceError
               (mkPending config now2 _) _ d2 Hd2) by exact Hw. simpl.
    rewrite (resume_granted endpoint PersistenceError
               (mkPending config now1 _) _ d1 Hd1) by exact Hw. simpl.
    rewrite <- app_assoc. now split.
Qed.

(** Two calls that do not overlap share one refresh: when the second call
    starts after the first one's reply was handled, and within the new
    token's lifetime, one request is sent in all and both callers get the
    same token. *)
Theorem sequential_calls_refresh_once
    (now1 now2 : Z) (w : World) (config : SpotifyConfig) (data : TokenData) :
  document w = Some config ->
  bootstrapped config ->
  writable w = true ->
  spec_expired config now1 ->
  endpoint (List.length (requests w)) (refreshRequest config) = Granted data ->
  data_access_token data <> "" ->
  0 <= now2 < now1 + data_expires_in data * 1000 ->
  requests (world (run [Invoke 0 now1; Deliver 0; Invoke 1 now2] (boot w)))
    = (requests w ++ [refreshRequest config])%list /\
  tasks (run [Invoke 0 now1; Deliver 0; Invoke 1 now2] (boot w)) 0%nat
    = Settled (Returned (WithAccessToken (Some (data_access_token data)))) /\
  tasks (run [Invoke 0 now1; Deliver 0; Invoke 1 now2] (boot w)) 1%nat
    = Settled (Returned (WithAccessToken (Some (data_access_token data)))).
Proof.
  intros Hdoc Hboot Hw Hexp Hreply Htoken Hnow2.
  apply spec_expired_shouldRefresh in Hexp.
  pose (tokens := mkRefreshed (data_access_token data) (data_expires_in data)).
  pose (w1 := written (refreshed config now1 tokens) (sent (refreshRequest config) w)).
  assert (Hsecond : createSpotifyApi_start endpoint ConfigMissing now2 w1
                    = (inl (Returned (WithAccessToken (Some (data_access_token data)))), w1)).
  { unfold createSpotifyApi_start, Credentials.loadSpotifyConfig. simpl.
    destruct Hboot as [_ Hr]. rewrite Hr.
    assert (Ht : negb (String.eqb (data_access_token data) "") = true)
      by (apply negb_true_iff, String.eqb_neq, Htoken).
    rewrite Ht. simpl.
    rewrite (future_not_shouldRefresh (refreshed config now1 tokens) now2
               (now1 + data_expires_in data * 1000)); [reflexivity | lia | reflexivity | lia]. }
  unfold Credentials.run, boot. simpl.
  rewrite (start_stale endpoint ConfigMissing now1 w config Hdoc Hboot Hexp). simpl.
  rewrite (resume_granted endpoint PersistenceError
             (mkPending config now1 _) _ data Hreply) by exact Hw. simpl.
  fold tokens. fold w1. rewrite Hsecond. simpl. repeat split.
Qed.

(** A failed refresh is not remembered: the stored config is as stale as
    before, so the next call at a later clock reading sends a refresh request
    of its own, the same one again. *)
Theorem failed_refresh_tried_again
    (now later : Z) (w : World) (config : SpotifyConfig) (error : JsError) :
  document w = Some config ->
  bootstrapped config ->
  spec_expired config now ->
  now <= later ->
  refreshResult (nextReply config w) = Thrown error ->
  fst (createSpotifyApi now w) = Thrown error /\
  requests (snd (createSpotifyApi later (snd (createSpotifyApi now w))))
    = (requests w ++ [refreshRequest config; refreshRequest config])%list.
Proof.
  intros Hdoc Hboot Hexp Hle Hreply.
  apply spec_expired_shouldRefresh in Hexp.
  rewrite (createSpotifyApi_stale endpoint ConfigMissing PersistenceError
             now w config Hdoc Hboot Hexp).
  rewrite Hreply. simpl. split; [reflexivity |].
  rewrite (createSpotifyApi_stale endpoint ConfigMissing PersistenceError
             later (sent (refreshRequest config) w) config Hdoc Hboot
             (shouldRefresh_monotone config now later Hle Hexp)).
  destruct (refreshResult (nextReply config (sent (refreshRequest config) w)))
    as [tokens | error'];
    [destruct (writable (sent (refreshRequest config) w)) |];
    unfold written, sent; simpl; now rewrite <- app_assoc.
Qed.

End More.

(** ** The scenarios, continued *)

Lemma failed_refresh_scenario :
  fst (createSpotifyApi revoking configMissing persistenceError 1000000 (stored staleRecord))
    = Thrown (ErrorObject "invalid_grant") /\
  requests (snd (createSpotifyApi revoking configMissing persistenceError 1000001
                   (snd (createSpotifyApi revoking configMissing persistenceError 1000000
                           (stored staleRecord)))))
    = [refreshRequest staleRecord; refreshRequest staleRecord].
Proof.
  exact (failed_refresh_tried_again revoking configMissing persistenceError
           1000000 1000001 (stored staleRecord) staleRecord (ErrorObject "invalid_grant")
           eq_refl staleRecord_bootstrapped staleRecord_expired ltac:(lia) eq_refl).
Defined.

Lemma createSpotifyApi_keeps_identity_scenario :
  exists config',
    document (snd (createSpotifyApi granting configMissing persistenceError 1000000
                     (stored staleRecord))) = Some config' /\
    clientId config' = clientId staleRecord /\
    clientSecret config' = clientSecret staleRecord /\
    redirectUri config' = redirectUri staleRecord /\
    refreshToken config' = refreshToken staleRecord /\
    writable (snd (createSpotifyApi granting configMissing persistenceError 1000000
                     (stored staleRecord))) = writable (stored staleRecord).
Proof.
  exact (createSpotifyApi_keeps_identity granting configMissing persistenceError
           1000000 (stored staleRecord) staleRecord eq_refl).
Defined.

Lemma createSpotifyApi_one_request_scenario :
  requests (snd (createSpotifyApi revoking configMissing persistenceError 1000000
                   (stored staleRecord)))
    = [RefreshGrant (Some "R1") "client-id" "client-secret"] /\
  writes (snd (createSpotifyApi revoking configMissing persistenceError 1000000
                 (stored staleRecord))) = [].
Proof.
  destruct (createSpotifyApi_one_request_at_most revoking configMissing persistenceError
              1000000 (stored staleRecord) staleRecord eq_refl)
    as [[Hr _] | [Hr [Hw | [record [Hw _]]]]].
  - discriminate Hr.
  - split; [exact Hr | exact Hw].
  - destruct (writes (stored staleRecord)); discriminate Hw.
Defined.

Lemma shouldRefresh_monotone_scenario :
  shouldRefresh staleRecord 2000000 = true.
Proof.
  exact (shouldRefresh_monotone staleRecord 1000000 2000000 ltac:(lia) eq_refl).
Defined.

Lemma refresh_then_reuse_scenario :
  createSpotifyApi granting configMissing persistenceError 2000000
    (snd (createSpotifyApi granting configMissing persistenceError 1000000
            (stored staleRecord)))
    = (Returned (WithAccessToken (Some "A2")),
       snd (createSpotifyApi granting configMissing persistenceError 1000000
              (stored staleRecord))).
Proof.
  exact (refresh_then_reuse granting configMissing persistenceError
           1000000 2000000 (stored staleRecord) staleRecord
           (mkTokenData "A2" 3600 (Some "R2")) eq_refl
           staleRecord_bootstrapped staleRecord_expired eq_refl eq_refl
           ltac:(discriminate) ltac:(simpl; lia)).
Defined.

(** An exchange that reports a lifetime of 0 seconds is stored with 3600:
    just short of an hour later the token is still used as it is. *)
Lemma bootstrap_then_use_scenario :
  createSpotifyApi granting configMissing persistenceError 4599999
    (stored (authorized emptyRecord 1000000 (exchanged (mkTokenData "A0" 0 (Some "R0")))))
    = (Returned (WithAccessToken (Some "A0")),
       stored (authorized emptyRecord 1000000 (exchanged (mkTokenData "A0" 0 (Some "R0"))))).
Proof.
  exact (bootstrap_then_use granting configMissing persistenceError
           1000000 4599999
           (stored (authorized emptyRecord 1000000
                      (exchanged (mkTokenData "A0" 0 (Some "R0")))))
           emptyRecord (mkTokenData "A0" 0 (Some "R0"))
           eq_refl ltac:(discriminate) eq_refl ltac:(simpl; lia) ltac:(lia)
           ltac:(simpl; lia)).
Defined.

Lemma race_last_reply_wins_scenario :
  (document (world race) = Some (identity (Some "A3") (Some "R1") (Some 4600000)) /\
   writes (world race)
     = [identity (Some "A2") (Some "R1") (Some 4600000);
        identity (Some "A3") (Some "R1") (Some 4600000)]) /\
  (document (world (run granting configMissing persistenceError
                      [Invoke 0 1000000; Invoke 1 1000000; Deliver 1; Deliver 0]
                      (boot (stored staleRecord))))
     = Some (identity (Some "A2") (Some "R1") (Some 4600000)) /\
   writes (world (run granting configMissing persistenceError
                    [Invoke 0 1000000; Invoke 1 1000000; Deliver 1; Deliver 0]
                    (boot (stored staleRecord))))
     = [identity (Some "A3") (Some "R1") (Some 4600000);
        identity (Some "A2") (Some "R1") (Some 4600000)]).
Proof.
  exact (race_last_reply_wins granting configMissing persistenceError
           1000000 1000000 (stored staleRecord) staleRecord
           (mkTokenData "A2" 3600 (Some "R2")) (mkTokenData "A3" 3600 (Some "R2"))
           eq_refl staleRecord_bootstrapped eq_refl
           staleRecord_expired staleRecord_expired eq_refl eq_refl).
Defined.

Lemma sequential_calls_scenario :
  requests (world (run granting configMissing persistenceError
                     [Invoke 0 1000000; Deliver 0; Invoke 1 2000000]
                     (boot (stored staleRecord))))
    = [refreshRequest staleRecord] /\
  tasks (run granting configMissing persistenceError
           [Invoke 0 1000000; Deliver 0; Invoke 1 2000000]
           (boot (stored staleRecord))) 0%nat
    = Settled (Returned (WithAccessToken (Some "A2"))) /\
  tasks (run granting configMissing persistenceError
           [Invoke 0 1000000; Deliver 0; Invoke 1 2000000]
           (boot (stored staleRecord))) 1%nat
    = Settled (Returned (WithAccessToken (Some "A2"))).
Proof.
  exact (sequential_calls_refresh_once granting configMissing persistenceError
           1000000 2000000 (stored staleRecord) staleRecord
           (mkTokenData "A2" 3600 (Some "R2"))
           eq_refl staleRecord_bootstrapped eq_refl staleRecord_expired eq_refl
           ltac:(discriminate) ltac:(simpl; lia)).
Defined.

End CredentialMore.

(* ================================================================== *)
(** * Properties of the tool list *)
(* ================================================================== *)

Module SchemaFacts.

Import Tools Server Schema.

(** Whatever zod schema is converted, every [type] of the resulting JSON
    schema is string, number or boolean, or array with its [items]: objects,
    unions, optionality and bounds never show. *)
Theorem zodToJsonSchema_vocabulary (zodSchema : ZodType) (j : JsonSchema) :
  zodToJsonSchema zodSchema = Some j ->
  scalarsAndArrays j = true.
Proof.
  revert zodSchema j. fix IH 1. intros zodSchema j.
  destruct zodSchema as [d | d | d | d inner | d values | d inner | d options | d];
    simpl; intros H.
  - now injection H as <-.
  - now injection H as <-.
  - now injection H as <-.
  - destruct (zodToJsonSchema inner) as [items |] eqn:Hinner; [| discriminate].
    injection H as <-. simpl. exact (IH inner items Hinner).
  - now injection H as <-.
  - exact (IH inner j H).
  - destruct options as [| firstType rest]; [discriminate |].
    exact (IH firstType j H).
  - now injection H as <-.
Qed.

Lemma assign_fresh {V : Type} (key : string) (value : V) (obj : list (string * V)) :
  ~ List.In key (List.map fst obj) ->
  assign key value obj = (obj ++ [(key, value)])%list.
Proof.
  induction obj as [| [k v] rest IH]; simpl; intros Hfresh; [reflexivity |].
  destruct (String.eqb_spec k key) as [-> | Hne].
  - exfalso. apply Hfresh. now left.
  - rewrite IH; [reflexivity |]. intros Hin. apply Hfresh. now right.
Qed.

Lemma lookup_old {V : Type} (key : string) (obj more : list (string * V)) :
  List.In key (List.map fst obj) ->
  lookup key (obj ++ more) = lookup key obj.
Proof.
  induction obj as [| [k v] rest IH]; simpl; intros Hin; [contradiction |].
  destruct (String.eqb_spec k key) as [-> | Hne]; [reflexivity |].
  apply IH. destruct Hin as [Heq | Hin]; [contradiction | assumption].
Qed.

Lemma lookup_new {V : Type} (key : string) (value : V) (obj : list (string * V)) :
  ~ List.In key (List.map fst obj) ->
  lookup key (obj ++ [(key, value)]) = Some value.
Proof.
  induction obj as [| [k v] rest IH]; simpl; intros Hfresh.
  - now rewrite String.eqb_refl.
  - destruct (String.eqb_spec k key) as [-> | Hne].
    + exfalso. apply Hfresh. now left.
    + apply IH. intros Hin. apply Hfresh. now right.
Qed.

(** The keys that [required] is to hold: those of the entries whose schema is
    not a ZodOptional, in order. *)
Definition requiredKeys (entries : list (string * ZodType)) : list string :=
  List.map fst (List.filter (fun entry => negb (isOptional (snd entry))) entries).

(** What the loop over the entries leaves in its two accumulators. *)
Lemma forEachEntry_spec (entries : list (string * ZodType)) :
  forall p0 r0 p r,
    List.NoDup (List.map fst p0 ++ List.map fst entries) ->
    forEachEntry entries (p0, r0) = Some (p, r) ->
    List.map fst p = (List.map fst p0 ++ List.map fst entries)%list /\
    r = (r0 ++ requiredKeys entries)%list /\
    (forall key zodSchema,
        List.In (key, zodSchema) entries -> lookup key p = zodToJsonSchema zodSchema) /\
    (forall key, List.In key (List.map fst p0) -> lookup key p = lookup key p0).
Proof.
  induction entries as [| [k zodSchema] rest IH]; intros p0 r0 p r Hnd Hrun.
  - simpl in Hrun. injection Hrun as <- <-. simpl.
    rewrite !app_nil_r. repeat split; intros; try contradiction; reflexivity.
  - simpl in Hrun.
    destruct (zodToJsonSchema zodSchema) as [converted |] eqn:Hconv; [| discriminate].
    assert (Hfresh : ~ List.In k (List.map fst p0)).
    { intros Hin. apply NoDup_remove_2 in Hnd. apply Hnd.
      apply in_or_app. now left. }
    rewrite (assign_fresh k converted p0 Hfresh) in Hrun.
    assert (Hnd' : List.NoDup (List.map fst (p0 ++ [(k, converted)]) ++ List.map fst rest)).
    { rewrite map_app. simpl. rewrite <- app_assoc. exact Hnd. }
    destruct (IH _ _ p r Hnd' Hrun) as [Hkeys [Hreq [Hentries Hold]]].
    split; [| split; [| split]].
    + rewrite Hkeys, map_app. simpl. now rewrite <- app_assoc.
    + rewrite Hreq. unfold requiredKeys. simpl.
      destruct (isOptional zodSchema); simpl; [reflexivity |].
      now rewrite <- app_assoc.
    + intros key zs [Heq | Hin].
      * injection Heq as <- <-.
        rewrite Hold.
        -- rewrite Hconv. now apply lookup_new.
        -- rewrite map_app. apply in_or_app. right. now left.
      * now apply Hentries.
    + intros key Hin.
      rewrite Hold.
      * now apply lookup_old.
      * rewrite map_app. apply in_or_app. now left.
Qed.

(** A listed tool advertises exactly the keys of its schema, in order, each
    with the conversion of its zod schema, and lists as [required] exactly
    the keys whose schema is not a ZodOptional. *)
Theorem toMcpTool_keys_and_required
    (W Args : Type) (t : described W Args) (m : McpTool) :
  List.NoDup (List.map fst (schema t)) ->
  toMcpTool t = Some m ->
  mcp_name m = name (the_tool t) /\
  List.map fst (properties (inputSchema m)) = List.map fst (schema t) /\
  required (inputSchema m)
    = List.map fst (List.filter (fun entry => negb (isOptional (snd entry))) (schema t)) /\
  (forall key zodSchema,
      List.In (key, zodSchema) (schema t) ->
      lookup key (properties (inputSchema m)) = zodToJsonSchema zodSchema).
Proof.
  intros Hnd Hm. unfold toMcpTool in Hm.
  destruct (forEachEntry (schema t) ([], [])) as [[p r] |] eqn:Hrun; [| discriminate].
  injection Hm as <-. simpl.
  destruct (forEachEntry_spec (schema t) [] [] p r Hnd Hrun) as [Hkeys [Hreq [Hentries _]]].
  repeat split; assumption.
Qed.

Lemma requiredKeys_In (entries : list (string * ZodType)) (key : string) :
  List.In key (requiredKeys entries) ->
  exists zodSchema, List.In (key, zodSchema) entries /\ isOptional zodSchema = false.
Proof.
  unfold requiredKeys. intros Hin. apply in_map_iff in Hin as [[k zs] [Hk Hin]].
  simpl in Hk. subst k. apply filter_In in Hin as [Hin Hopt]. simpl in Hopt.
  exists zs. split; [assumption | now apply negb_true_iff].
Qed.

Lemma NoDup_keys_unique {V : Type} (entries : list (string * V)) (key : string) (a b : V) :
  List.NoDup (List.map fst entries) ->
  List.In (key, a) entries -> List.In (key, b) entries -> a = b.
Proof.
  induction entries as [| [k v] rest IH]; simpl; intros Hnd Ha Hb; [contradiction |].
  inversion Hnd as [| ? ? Hfresh Hrest]; subst.
  destruct Ha as [Ha | Ha], Hb as [Hb | Hb].
  - congruence.
  - injection Ha as -> ->. exfalso. apply Hfresh.
    apply in_map_iff. now exists (key, b).
  - injection Hb as -> ->. exfalso. apply Hfresh.
    apply in_map_iff. now exists (key, a).
  - now apply IH.
Qed.

(** An optional parameter is advertised with the schema of its inner type
    alone and is not required: the description given to the optional wrapper
    plays no part in what is listed. *)
Theorem optional_parameter_listed_as_inner
    (W Args : Type) (t : described W Args) (m : McpTool)
    (key : string) (wrapperDescription : option string) (innerType : ZodType) :
  List.NoDup (List.map fst (schema t)) ->
  toMcpTool t = Some m ->
  List.In (key, ZodOptional wrapperDescription innerType) (schema t) ->
  lookup key (properties (inputSchema m)) = zodToJsonSchema innerType /\
  ~ List.In key (required (inputSchema m)).
Proof.
  intros Hnd Hm Hin. unfold toMcpTool in Hm.
  destruct (forEachEntry (schema t) ([], [])) as [[p r] |] eqn:Hrun; [| discriminate].
  injection Hm as <-. simpl.
  destruct (forEachEntry_spec (schema t) [] [] p r Hnd Hrun) as [_ [Hreq [Hentries _]]].
  simpl in Hreq.
  split.
  - now rewrite (Hentries key _ Hin).
  - rewrite Hreq. intros Hrequired.
    apply requiredKeys_In in Hrequired as [zs [Hzs Hopt]].
    rewrite <- (NoDup_keys_unique (schema t) key _ _ Hnd Hin Hzs) in Hopt.
    discriminate.
Qed.

Lemma mcpTools_names (W Args : Type) (allTools : list (described W Args)) :
  forall listed,
    mcpTools allTools = Some listed ->
    List.map mcp_name listed = List.map (fun t => name (the_tool t)) allTools.
Proof.
  induction allTools as [| t rest IH]; simpl; intros listed H.
  - now injection H as <-.
  - destruct (toMcpTool t) as [m |] eqn:Hm; [| discriminate].
    destruct (mcpTools rest) as [ms |]; [| discriminate].
    injection H as <-. simpl. rewrite (IH ms eq_refl). f_equal.
    unfold toMcpTool in Hm.
    destruct (forEachEntry (schema t) ([], [])) as [[p r] |]; [| discriminate].
    now injection Hm as <-.
Qed.

Lemma findTool_listed (W Args : Type) (tools : list (tool W Args)) (toolName : string) :
  List.In toolName (List.map name tools) ->
  exists t, findTool W Args tools toolName = Some t.
Proof.
  unfold findTool. induction tools as [| u rest IH]; simpl; intros Hin; [contradiction |].
  destruct (String.eqb_spec (name u) toolName) as [Heq | Hne].
  - now exists u.
  - apply IH. destruct Hin as [Heq | Hin]; [contradiction | assumption].
Qed.

(** The list of tools and the dispatcher agree: a name answered by ListTools
    is dispatched to a tool of that name, and for a name not answered by
    ListTools the dispatcher throws [Tool not found]. *)
Theorem listed_iff_dispatched
    (W Args : Type) (allTools : list (described W Args)) (listed : list McpTool)
    (toolName : string) (args : Args) (w : W) :
  mcpTools allTools = Some listed ->
  (List.In toolName (List.map mcp_name listed) ->
   exists t,
     findTool W Args (List.map the_tool allTools) toolName = Some t /\
     name t = toolName /\
     callTool W Args (List.map the_tool allTools) toolName args w
       = try_catch
           (result <- handler t args mockExtra ;;
            ret (mkCallToolResult (content result) None))
           (fun error =>
              ret (mkCallToolResult
                     [mkContent "text"
                        ("Error executing tool " ++ dq ++ toolName ++ dq ++ ": "
                           ++ errorText error)]
                     (Some true))) w) /\
  (~ List.In toolName (List.map mcp_name listed) ->
   callTool W Args (List.map the_tool allTools) toolName args w
     = (Thrown (ErrorObject ("Tool not found: " ++ toolName)), w)).
Proof.
  intros Hlisted.
  rewrite (mcpTools_names W Args allTools listed Hlisted).
  rewrite <- (map_map the_tool name allTools).
  split; intros Hin.
  - destruct (findTool_listed W Args _ toolName Hin) as [t Hfind].
    exists t. split; [assumption |]. split.
    + now apply (ToolFacts.findTool_some W Args (List.map the_tool allTools) toolName t).
    + unfold callTool. now rewrite Hfind.
  - unfold callTool.
    now rewrite (ToolFacts.findTool_none W Args (List.map the_tool allTools) toolName Hin).
Qed.

(** ** Scenarios *)

Lemma zodToJsonSchema_vocabulary_scenario :
  scalarsAndArrays (ArrayOf (EnumOf ["track"; "album"] "") "kinds") = true.
Proof.
  exact (zodToJsonSchema_vocabulary
           (ZodArray (Some "kinds")
              (ZodUnion (Some "one of")
                 [ZodOptional (Some "kind") (ZodEnum None ["track"; "album"]);
                  ZodNumber None]))
           (ArrayOf (EnumOf ["track"; "album"] "") "kinds") eq_refl).
Defined.

Lemma albumTracks_keys_distinct :
  List.NoDup (List.map fst (schema Albums.describedAlbumTracks)).
Proof.
  simpl. repeat constructor; simpl; intuition discriminate.
Qed.

(** The tool list entry of [getAlbumTracks]: three keys, [albumId] alone
    required. *)
Lemma toMcpTool_scenario :
  mcp_name Albums.listedAlbumTracks = "getAlbumTracks" /\
  List.map fst (properties (inputSchema Albums.listedAlbumTracks))
    = ["albumId"; "limit"; "offset"] /\
  required (inputSchema Albums.listedAlbumTracks) = ["albumId"] /\
  (forall key zodSchema,
      List.In (key, zodSchema) (schema Albums.describedAlbumTracks) ->
      lookup key (properties (inputSchema Albums.listedAlbumTracks))
        = zodToJsonSchema zodSchema).
Proof.
  exact (toMcpTool_keys_and_required unit Albums.Arguments
           Albums.describedAlbumTracks Albums.listedAlbumTracks
           albumTracks_keys_distinct eq_refl).
Defined.

(** The description written for [limit] sits on the optional wrapper: what
    is listed for [limit] has the empty description. *)
Lemma optional_parameter_scenario :
  lookup "limit" (properties (inputSchema Albums.listedAlbumTracks))
    = Some (Plain "number" "") /\
  ~ List.In "limit" (required (inputSchema Albums.listedAlbumTracks)).
Proof.
  exact (optional_parameter_listed_as_inner unit Albums.Arguments
           Albums.describedAlbumTracks Albums.listedAlbumTracks
           "limit" (Some "Maximum number of tracks to return (1-50)") (ZodNumber None)
           albumTracks_keys_distinct eq_refl (or_intror (or_introl eq_refl))).
Defined.

Lemma listed_iff_dispatched_scenario :
  List.map mcp_name Albums.listedTools
    = ["getMultipleAlbums"; "saveAlbumsForUser"; "removeAlbumsForUser";
       "checkUsersSavedAlbums"; "devices"] /\
  callTool (list ApiRequest) AlbumIdsArgs
    (List.map the_tool (describedTools (list ApiRequest) (directRequest library)))
    "getAlbum" (mkAlbumIdsArgs []) []
    = (Thrown (ErrorObject "Tool not found: getAlbum"), []).
Proof.
  split; [reflexivity |].
  apply (listed_iff_dispatched (list ApiRequest) AlbumIdsArgs
           (describedTools (list ApiRequest) (directRequest library))
           Albums.listedTools "getAlbum" (mkAlbumIdsArgs []) [] eq_refl).
  simpl. intros H. repeat (destruct H as [H | H]; [discriminate |]). exact H.
Defined.

End SchemaFacts.

(* ================================================================== *)
(** * Further properties of the tools *)
(* ================================================================== *)

Module ToolMore.

Import Tools Server Albums.

Ltac run_request :=
  match goal with
  | |- context [?h ?T ?action ?w] =>
      match type of h with
      | forall T : Type, (_ -> Eff _ T) -> Eff _ T =>
          destruct (h T action w) as [[? | ?] ?]
      end
  end.

Ltac open_handler :=
  cbn [handler name asCalled unvalidated getAlbum getAlbumTracks getNewReleases
         getUsersSavedAlbums getMultipleAlbums saveAlbumsForUser removeAlbumsForUser
         checkUsersSavedAlbums albumIds];
  unfold getAlbum_handler, getAlbumTracks_handler, getNewReleases_handler,
    getUsersSavedAlbums_handler, getMultipleAlbums_handler, saveAlbumsForUser_handler,
    removeAlbumsForUser_handler, checkUsersSavedAlbums_handler, coreRequest,
    try_catch, bind, ret, throw;
  cbn [albumIds].

(** A handler that got as far as its request returns, whatever the request
    did. *)
Ltac returns_anyway :=
  run_request; simpl; try reflexivity;
  match goal with
  | |- context [if ?b then _ else _] => destruct b; reflexivity
  end.

Section AlbumTools.

Variable W : Type.
Variable handleSpotifyRequest : forall T : Type, (FullApi W -> Eff W T) -> Eff W T.
Variable formatDuration : Z -> string.
Variable toLocaleDateString : string -> string.
Variable destructuringError : string -> JsError.
Variable lengthError : JsError.

Local Abbreviation albumTools :=
  (albumTools W handleSpotifyRequest formatDuration toLocaleDateString
     destructuringError lengthError).

(** What a handler of [albumTools] does with arguments that were not
    validated. *)
Lemma album_tool_outcome (t : tool W Arguments) :
  List.In t albumTools ->
  (forall extra w,
      handler t None extra w = (Thrown (destructuringError (name t)), w)) /\
  (forall args extra w,
      readsAlbumIds (name t) = true ->
      arg_albumIds args = None ->
      handler t (Some args) extra w = (Thrown lengthError, w)) /\
  (forall args extra w,
      readsAlbumIds (name t) = false \/ arg_albumIds args <> None ->
      isThrown (fst (handler t (Some args) extra w)) = false).
Proof.
  unfold Albums.albumTools. simpl.
  intros [<- | [<- | [<- | [<- | [<- | [<- | [<- | [<- | []]]]]]]]];
    (split; [| split]); intros;
    try (match goal with H : readsAlbumIds _ = true |- _ => discriminate H end);
    open_handler; try reflexivity.
  all: try match goal with
           | H : arg_albumIds ?a = None |- _ => rewrite H; reflexivity
           end.
  all: try match goal with
           | H : _ \/ arg_albumIds ?a <> None |- _ =>
               destruct H as [H | H]; [discriminate H |];
               destruct (arg_albumIds a) as [ids |]; [| contradiction];
               cbn [albumIds];
               destruct (Nat.eqb (List.length ids) 0); [reflexivity |]
           end.
  all: returns_anyway.
Qed.

(** Each of the eight album tools throws in two cases only, both before its
    try block and before any request: called without arguments, it throws
    the TypeError of destructuring; called with an object that lacks
    [albumIds], each of the four tools that read [albumIds.length] throws the
    TypeError of that read.  In every other case -- an object whose present
    properties have their declared types -- the handler returns, whatever
    [handleSpotifyRequest] does. *)
Theorem album_tools_throw_only_before_try :
  List.Forall
    (fun t : tool W Arguments =>
       (forall extra w,
           handler t None extra w = (Thrown (destructuringError (name t)), w)) /\
       (forall args extra w,
           readsAlbumIds (name t) = true ->
           arg_albumIds args = None ->
           handler t (Some args) extra w = (Thrown lengthError, w)) /\
       (forall args extra w,
           readsAlbumIds (name t) = false \/ arg_albumIds args <> None ->
           isThrown (fst (handler t (Some args) extra w)) = false))
    albumTools.
Proof.
  apply List.Forall_forall. intros t Hin. exact (album_tool_outcome t Hin).
Qed.

(** When [handleSpotifyRequest] fails with [error] whatever it is asked,
    every album tool called with an arguments object answers a plain text:
    the four tools that read no [albumIds] always their own prefix followed
    by the error's message; the four that do, the same on a non-empty array,
    and on the empty array the text of their guard with the world
    untouched. *)
Theorem album_tools_report_failure_as_text (w w' : W) (error : JsError) :
  (forall (T : Type) (action : FullApi W -> Eff W T),
      handleSpotifyRequest T action w = (Thrown error, w')) ->
  List.Forall
    (fun t : tool W Arguments =>
       forall (args : ArgumentsObject) (extra : SpotifyHandlerExtra),
         (readsAlbumIds (name t) = false ->
          handler t (Some args) extra w
            = (Returned (textResult (failurePrefix (name t) ++ errorText error)), w')) /\
         (forall id ids,
             readsAlbumIds (name t) = true ->
             arg_albumIds args = Some (id :: ids) ->
             handler t (Some args) extra w
               = (Returned (textResult (failurePrefix (name t) ++ errorText error)), w')) /\
         (readsAlbumIds (name t) = true ->
          arg_albumIds args = Some [] ->
          handler t (Some args) extra w
            = (Returned (textResult "Error: No album IDs provided"), w)))
    albumTools.
Proof.
  intros Hfail. unfold Albums.albumTools.
  repeat apply List.Forall_cons; try apply List.Forall_nil;
    intros args extra; (split; [| split]); intros;
    try (match goal with H : readsAlbumIds _ = _ |- _ => discriminate H end);
    open_handler;
    try match goal with
        | H : arg_albumIds _ = Some _ |- _ => rewrite H; cbn [albumIds List.length Nat.eqb]
        end;
    try reflexivity; rewrite Hfail; reflexivity.
Qed.

(** Dispatched by name, an album tool is answered with [isError] exactly in
    the two cases in which its handler throws before the try block -- no
    arguments, or no [albumIds] for the four tools that read it -- and the
    answer then carries the TypeError's message; in every other case the
    answer is the handler's content without [isError], whatever the API
    did. *)
Theorem album_tools_flagged_only_without_arguments
    (allTools : list (tool W Arguments)) (toolName : string)
    (t : tool W Arguments) (w : W) :
  findTool W Arguments allTools toolName = Some t ->
  List.In t albumTools ->
  callTool W Arguments allTools toolName None w
    = (Returned
         (mkCallToolResult
            [mkContent "text"
               ("Error executing tool " ++ dq ++ toolName ++ dq ++ ": "
                  ++ errorText (destructuringError toolName))]
            (Some true)),
       w) /\
  (forall args,
      readsAlbumIds toolName = true ->
      arg_albumIds args = None ->
      callTool W Arguments allTools toolName (Some args) w
        = (Returned
             (mkCallToolResult
                [mkContent "text"
                   ("Error executing tool " ++ dq ++ toolName ++ dq ++ ": "
                      ++ errorText lengthError)]
                (Some true)),
           w)) /\
  (forall args,
      readsAlbumIds toolName = false \/ arg_albumIds args <> None ->
      exists result,
        handler t (Some args) mockExtra w
          = (Returned result, snd (handler t (Some args) mockExtra w)) /\
        callTool W Arguments allTools toolName (Some args) w
          = (Returned (mkCallToolResult (content result) None),
             snd (handler t (Some args) mockExtra w))).
Proof.
  intros Hfind Hin.
  assert (Hname : name t = toolName)
    by (apply (ToolFacts.findTool_some W Arguments allTools toolName t Hfind)).
  destruct (album_tool_outcome t Hin) as [Hnone [Hlength Hreturns]].
  rewrite Hname in Hnone, Hlength, Hreturns.
  unfold callTool, try_catch, bind. rewrite Hfind.
  split; [| split].
  - now rewrite Hnone.
  - intros args Hreads Hmissing. now rewrite (Hlength args mockExtra w Hreads Hmissing).
  - intros args Hok. specialize (Hreturns args mockExtra w Hok).
    destruct (handler t (Some args) mockExtra w) as [[result | error] w1];
      [| discriminate Hreturns].
    exists result. now split.
Qed.

End AlbumTools.

Section AlbumIdsTools.

Variable W : Type.
Variable handleSpotifyRequest : forall T : Type, (SpotifyApi W -> Eff W T) -> Eff W T.

Lemma mapi_from_length {A B : Type} (f : A -> nat -> B) (xs : list A) :
  forall start, List.length (mapi_from start f xs) = List.length xs.
Proof. induction xs as [| x rest IH]; simpl; intros start; [| rewrite IH]; reflexivity. Qed.

Lemma mapi_from_nth {A B : Type} (f : A -> nat -> B) (xs : list A) (da : A) (db : B) :
  forall start i,
    (i < List.length xs)%nat ->
    List.nth i (mapi_from start f xs) db = f (List.nth i xs da) (start + i)%nat.
Proof.
  induction xs as [| x rest IH]; simpl; intros start i Hi; [lia |].
  destruct i as [| i]; simpl.
  - now rewrite Nat.add_0_r.
  - rewrite IH by lia. f_equal. lia.
Qed.

(** The save-status report has one line per requested id, in order, whatever
    the length of the array the API returned: an id whose position the reply
    does not reach is reported as not saved. *)
Theorem checkUsersSavedAlbums_one_line_per_id
    (id : string) (ids : list string) (extra : SpotifyHandlerExtra)
    (w w' : W) (savedStatus : list bool) :
  handleSpotifyRequest _ (fun spotifyApi => hasSavedAlbums spotifyApi (id :: ids)) w
    = (Returned savedStatus, w') ->
  exists lines,
    checkUsersSavedAlbums_handler W handleSpotifyRequest (mkAlbumIdsArgs (id :: ids)) extra w
      = (Returned (textResult ("# Album Save Status" ++ nl ++ nl ++ String.concat nl lines)),
         w') /\
    List.length lines = List.length (id :: ids) /\
    (forall i,
        (i < List.length (id :: ids))%nat ->
        List.nth i lines ""
          = show_nat (i + 1) ++ ". " ++ List.nth i (id :: ids) "" ++ ": "
              ++ (if List.nth i savedStatus false then "Saved" else "Not saved")) /\
    (forall i,
        (List.length savedStatus <= i < List.length (id :: ids))%nat ->
        List.nth i lines ""
          = show_nat (i + 1) ++ ". " ++ List.nth i (id :: ids) "" ++ ": Not saved").
Proof.
  intros Hreply.
  exists (mapi (formatSaved savedStatus) (id :: ids)).
  assert (Hline : forall i,
             (i < List.length (id :: ids))%nat ->
             List.nth i (mapi (formatSaved savedStatus) (id :: ids)) ""
             = show_nat (i + 1) ++ ". " ++ List.nth i (id :: ids) "" ++ ": "
                 ++ (if List.nth i savedStatus false then "Saved" else "Not saved")).
  { intros i Hi. unfold mapi.
    now rewrite (mapi_from_nth _ (id :: ids) "" "" 0 i Hi). }
  split; [| split; [| split]].
  - unfold checkUsersSavedAlbums_handler, try_catch, bind. cbn [albumIds List.length Nat.eqb].
    now rewrite Hreply.
  - apply mapi_from_length.
  - exact Hline.
  - intros i [Hshort Hi]. rewrite (Hline i Hi).
    now rewrite (List.nth_overflow savedStatus false Hshort).
Qed.

(** The device tool has no try block: dispatched by name, its answer is
    flagged [isError] exactly when [handleSpotifyRequest] throws, and then
    carries the exception's message; otherwise it lists the devices. *)
Theorem devices_tool_flagged_on_failure
    (Args : Type) (allTools : list (tool W Args)) (args : Args) (w : W) :
  findTool W Args allTools "devices"
    = Some (getAvailableDevicesTool W handleSpotifyRequest) ->
  callTool W Args allTools "devices" args w =
    match handleSpotifyRequest _ (fun spotifyApi => getAvailableDevices spotifyApi) w with
    | (Returned result, w') =>
        (Returned
           (mkCallToolResult
              [mkContent "text"
                 ("Available devices: "
                    ++ String.concat ""
                         (List.map
                            (fun d => nl ++ "- " ++ device_name d ++ " (" ++ device_id d ++ ")")
                            (devices result)))]
              None),
         w')
    | (Thrown error, w') =>
        (Returned
           (mkCallToolResult
              [mkContent "text"
                 ("Error executing tool " ++ dq ++ "devices" ++ dq ++ ": "
                    ++ errorText error)]
              (Some true)),
         w')
    end.
Proof.
  intros Hfind. unfold callTool. rewrite Hfind.
  unfold try_catch, bind. cbn [handler getAvailableDevicesTool].
  unfold getAvailableDevices_handler, bind.
  destruct (handleSpotifyRequest Devices _ w) as [[result | error] w']; reflexivity.
Qed.

End AlbumIdsTools.

Section Shadowing.

Variables W Args : Type.

(** The first tool registered under a name is the one dispatched: the tools
    after it in [allTools], among them any with the same name, make no
    difference to what a request for that name does. *)
Theorem first_registration_wins
    (before after : list (tool W Args)) (t : tool W Args) (args : Args) (w : W) :
  ~ List.In (name t) (List.map name before) ->
  callTool W Args (before ++ t :: after) (name t) args w
    = callTool W Args [t] (name t) args w.
Proof.
  intros Hfresh. unfold callTool, findTool.
  assert (Hfind : List.find (fun u => String.eqb (name u) (name t)) (before ++ t :: after)
                  = Some t).
  { induction before as [| u rest IH]; simpl.
    - now rewrite String.eqb_refl.
    - destruct (String.eqb_spec (name u) (name t)) as [Heq | Hne].
      + exfalso. apply Hfresh. now left.
      + apply IH. intros Hin. apply Hfresh. now right. }
  rewrite Hfind. simpl. now rewrite String.eqb_refl.
Qed.

End Shadowing.

(** ** Scenarios *)

(** A second [devices] tool, over a backend that refuses, is shadowed by the
    first. *)
Lemma first_registration_scenario :
  callTool (list ApiRequest) AlbumIdsArgs
    (recordedTools library ++ recordedTools unauthorized) "devices" (mkAlbumIdsArgs []) []
    = callTool (list ApiRequest) AlbumIdsArgs
        [getAvailableDevicesTool (list ApiRequest) (directRequest library)]
        "devices" (mkAlbumIdsArgs []) [].
Proof.
  apply (first_registration_wins (list ApiRequest) AlbumIdsArgs
           (albumIdsTools (list ApiRequest) (directRequest library))
           (recordedTools unauthorized)
           (getAvailableDevicesTool (list ApiRequest) (directRequest library))
           (mkAlbumIdsArgs []) []).
  simpl. intros H. repeat (destruct H as [H | H]; [discriminate |]). exact H.
Defined.

Lemma album_tools_throw_scenario :
  handler (getAlbum unit refusing cannotDestructure) None mockExtra tt
    = (Thrown (cannotDestructure "getAlbum"), tt) /\
  handler (asCalled unit cannotDestructure cannotReadLength
             (saveAlbumsForUser unit (coreRequest unit refusing)))
      (Some (mkArgumentsObject None None None None)) mockExtra tt
    = (Thrown cannotReadLength, tt) /\
  isThrown (fst (handler (getAlbum unit refusing cannotDestructure)
                   (Some (mkArgumentsObject None None None None)) mockExtra tt))
    = false.
Proof.
  pose proof (album_tools_throw_only_before_try unit refusing minutes sameDate
                cannotDestructure cannotReadLength) as Hall.
  rewrite List.Forall_forall in Hall.
  destruct (Hall (getAlbum unit refusing cannotDestructure) (or_introl eq_refl))
    as [Hnone [_ Hreturns]].
  destruct (Hall (asCalled unit cannotDestructure cannotReadLength
                    (saveAlbumsForUser unit (coreRequest unit refusing)))
              (or_intror (or_intror (or_intror (or_intror (or_intror
                 (or_introl eq_refl)))))))
    as [_ [Hlength _]].
  split; [exact (Hnone mockExtra tt) |].
  split; [exact (Hlength (mkArgumentsObject None None None None) mockExtra tt
                   eq_refl eq_refl) |].
  exact (Hreturns (mkArgumentsObject None None None None) mockExtra tt
           (or_introl eq_refl)).
Defined.

Lemma album_tools_report_failure_scenario :
  List.Forall
    (fun t : tool unit Arguments =>
       forall (args : ArgumentsObject) (extra : SpotifyHandlerExtra),
         (readsAlbumIds (name t) = false ->
          handler t (Some args) extra tt
            = (Returned (textResult (failurePrefix (name t)
                                       ++ errorText (ErrorObject "invalid_grant"))), tt)) /\
         (forall id ids,
             readsAlbumIds (name t) = true ->
             arg_albumIds args = Some (id :: ids) ->
             handler t (Some args) extra tt
               = (Returned (textResult (failurePrefix (name t)
                                          ++ errorText (ErrorObject "invalid_grant"))), tt)) /\
         (readsAlbumIds (name t) = true ->
          arg_albumIds args = Some [] ->
          handler t (Some args) extra tt
            = (Returned (textResult "Error: No album IDs provided"), tt)))
    (albumTools unit refusing minutes sameDate cannotDestructure cannotReadLength).
Proof.
  exact (album_tools_report_failure_as_text unit refusing minutes sameDate
           cannotDestructure cannotReadLength tt tt
           (ErrorObject "invalid_grant") (fun _ _ => eq_refl)).
Defined.

(** A request for [saveAlbumsForUser] without arguments is answered with
    [isError]; with one id, while the API refuses, it is answered with the
    tool's own text. *)
Lemma album_tools_flagged_scenario :
  callTool unit Arguments refusedTools "saveAlbumsForUser" None tt
    = (Returned
         (mkCallToolResult
            [mkContent "text"
               ("Error executing tool " ++ dq ++ "saveAlbumsForUser" ++ dq ++ ": "
                  ++ errorText (cannotDestructure "saveAlbumsForUser"))]
            (Some true)),
       tt) /\
  callTool unit Arguments refusedTools "saveAlbumsForUser"
    (Some (mkArgumentsObject None (Some ["a"]) None None)) tt
    = (Returned
         (mkCallToolResult
            [mkContent "text" "Error saving albums: invalid_grant"] None),
       tt).
Proof.
  destruct (album_tools_flagged_only_without_arguments unit refusing minutes sameDate
              cannotDestructure cannotReadLength refusedTools "saveAlbumsForUser"
              (asCalled unit cannotDestructure cannotReadLength
                 (saveAlbumsForUser unit (coreRequest unit refusing)))
              tt eq_refl
              (or_intror (or_intror (or_intror (or_intror (or_intror
                 (or_introl eq_refl)))))))
    as [Hnone _].
  split; [exact Hnone | reflexivity].
Defined.

(** Two ids asked, one entry answered: the second id is reported as not
    saved. *)
Lemma checkUsersSavedAlbums_scenario :
  exists lines,
    checkUsersSavedAlbums_handler (list ApiRequest) (directRequest shortReply)
      (mkAlbumIdsArgs ["a"; "b"]) mockExtra []
      = (Returned (textResult ("# Album Save Status" ++ nl ++ nl ++ String.concat nl lines)),
         [HasSavedAlbums ["a"; "b"]]) /\
    List.length lines = 2%nat /\
    (forall i,
        (i < 2)%nat ->
        List.nth i lines ""
          = show_nat (i + 1) ++ ". " ++ List.nth i ["a"; "b"] "" ++ ": "
              ++ (if List.nth i [true] false then "Saved" else "Not saved")) /\
    (forall i,
        (1 <= i < 2)%nat ->
        List.nth i lines "" = show_nat (i + 1) ++ ". " ++ List.nth i ["a"; "b"] ""
                                ++ ": Not saved").
Proof.
  exact (checkUsersSavedAlbums_one_line_per_id (list ApiRequest) (directRequest shortReply)
           "a" ["b"] mockExtra [] [HasSavedAlbums ["a"; "b"]] [true] eq_refl).
Defined.

Lemma devices_tool_scenario :
  callTool (list ApiRequest) AlbumIdsArgs (recordedTools library)
    "devices" (mkAlbumIdsArgs []) []
    = (Returned
         (mkCallToolResult
            [mkContent "text" ("Available devices: " ++ nl ++ "- Kitchen speaker (d1)")]
            None),
       [GetAvailableDevices]).
Proof.
  exact (devices_tool_flagged_on_failure (list ApiRequest) (directRequest library)
           AlbumIdsArgs (recordedTools library) (mkAlbumIdsArgs []) [] eq_refl).
Defined.

End ToolMore.
